(** * libcloud.storage.drivers.s3: request signing, response
      classification and entity mapping of the Amazon S3 storage driver.

    The development embeds [src/libcloud/storage/drivers/s3.py] shallowly:
    Python [str] values (byte strings, Python 2) are [string], [int] is [Z],
    a [dict] whose iteration order is never observed is a [gmap], a [dict]
    that the code iterates is the list of its items in iteration order, and
    [None] is the [None] of an [option]. *)

From Stdlib Require Import ZArith QArith.QArith_base Strings.String Strings.Ascii List.
From stdpp Require Import base gmap strings list sorting pretty.

#[local] Set Warnings "-register-all,-clear-no-such-hyp".

Local Open Scope string_scope.
Local Open Scope Z_scope.
Local Open Scope list_scope.

(** Closes [Forall] goals over a literal list of elements whose tags differ
    from a given one. *)
Ltac solve_tags :=
  repeat first [apply Forall_nil_2
               |apply Forall_cons_2; [vm_compute; discriminate|]].

(** ** Python built-ins used by the driver *)

Module Py.

(** [str.lower] of a byte string in the C locale: only [A]..[Z] change. *)
Definition is_upper (c : ascii) : bool :=
  let n := N_of_ascii c in (65 <=? n)%N && (n <=? 90)%N.

Definition lower_char (c : ascii) : ascii :=
  if is_upper c then ascii_of_N (N_of_ascii c + 32) else c.

Fixpoint lower (s : string) : string :=
  match s with
  | EmptyString => EmptyString
  | String c s' => String (lower_char c) (lower s')
  end.

(** [str.strip()] removes leading and trailing whitespace
    (tab, newline, vertical tab, form feed, carriage return, space). *)
Fixpoint lstrip (s : string) : string :=
  match s with
  | EmptyString => EmptyString
  | String c s' => if Ascii.is_space c then lstrip s' else s
  end.

Fixpoint rstrip (s : string) : string :=
  match s with
  | EmptyString => EmptyString
  | String c s' =>
      match rstrip s' with
      | EmptyString => if Ascii.is_space c then EmptyString else String c EmptyString
      | r => String c r
      end
  end.

Definition strip (s : string) : string := rstrip (lstrip s).

(** [sep.join(l)] *)
Fixpoint join (sep : string) (l : list string) : string :=
  match l with
  | [] => ""
  | [x] => x
  | x :: l' => x +:+ sep +:+ join sep l'
  end.

(** [s.split(sep)] for a one-character separator. *)
Fixpoint split_go (sep : ascii) (cur : string) (s : string) : list string :=
  match s with
  | EmptyString => [String.rev cur]
  | String c s' =>
      if Ascii.eqb c sep then String.rev cur :: split_go sep "" s'
      else split_go sep (String c cur) s'
  end.

Definition split (sep : ascii) (s : string) : list string := split_go sep "" s.

(** [str(i)] and ['%d' % i] of an [int]: the decimal numeral. *)
Definition str_int (i : Z) : string := pretty i.

(** ['%s' % v] where [v] is a [str] or [None]. *)
Definition fmt_s (v : option string) : string :=
  match v with
  | Some s => s
  | None => "None"
  end.

(** The values the signer's [expires] argument takes: it is tested for
    truth and passed to [str]. *)
Inductive value :=
| VNone
| VStr (s : string)
| VInt (i : Z).

Definition truthy (v : value) : bool :=
  match v with
  | VNone => false
  | VStr s => negb (String.eqb s "")
  | VInt i => negb (i =? 0)
  end.

Definition str (v : value) : string :=
  match v with
  | VNone => "None"
  | VStr s => s
  | VInt i => str_int i
  end.

(** [int(x)] of a (finite) [float], given as the rational it denotes:
    truncation toward zero. *)
Definition int_of_float (x : Q) : Z := Z.quot (Qnum x) (Z.pos (Qden x)).

(** Every character of [s] is whitespace. *)
Fixpoint all_space (s : string) : bool :=
  match s with
  | EmptyString => true
  | String c s' => Ascii.is_space c && all_space s'
  end.

(** No character of [s] is an upper-case letter. *)
Fixpoint no_upper (s : string) : bool :=
  match s with
  | EmptyString => true
  | String c s' => negb (is_upper c) && no_upper s'
  end.

End Py.

(** [httplib] status constants. *)
Module httplib.
Definition OK : Z := 200.
Definition NO_CONTENT : Z := 204.
Definition NOT_FOUND : Z := 404.
Definition CONFLICT : Z := 409.
End httplib.

(** Module-level constants of s3.py. *)
Definition EXPIRATION_SECONDS : Z := 15 * 60.

Definition S3_US_STANDARD_HOST := "s3.amazonaws.com".
Definition S3_US_WEST_HOST := "s3-us-west-1.amazonaws.com".
Definition S3_EU_WEST_HOST := "s3-eu-west-1.amazonaws.com".
Definition S3_AP_SOUTHEAST_HOST := "s3-ap-southeast-1.amazonaws.com".
Definition S3_AP_NORTHEAST_HOST := "s3-ap-northeast-1.amazonaws.com".

Definition API_VERSION := "2006-03-01".
Definition NAMESPACE := "http://s3.amazonaws.com/doc/" +:+ API_VERSION +:+ "/".

(** ** Python standard library: [hashlib.sha1], [hmac], [base64]

    The signer calls [hmac.new(key, msg, digestmod=sha1).digest()] and
    [base64.b64encode]; both are given here as executable functions on byte
    strings (FIPS 180-1, RFC 2104, RFC 4648). *)

Module hashlib.

Fixpoint bytes_of_string (s : string) : list Z :=
  match s with
  | EmptyString => []
  | String c s' => Z.of_N (N_of_ascii c) :: bytes_of_string s'
  end.

Fixpoint string_of_bytes (l : list Z) : string :=
  match l with
  | [] => EmptyString
  | b :: l' => String (ascii_of_N (Z.to_N b)) (string_of_bytes l')
  end.

Definition w32 (x : Z) : Z := Z.land x 0xFFFFFFFF.

Definition rotl (n x : Z) : Z :=
  w32 (Z.lor (Z.shiftl x n) (Z.shiftr x (32 - n))).

(** The [n] low-order bytes of [x], most significant first. *)
Fixpoint be_bytes (n : nat) (x : Z) : list Z :=
  match n with
  | O => []
  | S n' => be_bytes n' (Z.shiftr x 8) ++ [Z.land x 0xFF]
  end.

Definition pad (msg : list Z) : list Z :=
  let len := Z.of_nat (length msg) in
  msg ++ [0x80] ++ replicate (Z.to_nat ((55 - len) mod 64)) 0
      ++ be_bytes 8 (8 * len).

Fixpoint words_of_bytes (fuel : nat) (l : list Z) : list Z :=
  match fuel, l with
  | S fuel', b0 :: b1 :: b2 :: b3 :: l' =>
      Z.lor (Z.shiftl b0 24) (Z.lor (Z.shiftl b1 16) (Z.lor (Z.shiftl b2 8) b3))
        :: words_of_bytes fuel' l'
  | _, _ => []
  end.

Fixpoint blocks (fuel : nat) (ws : list Z) : list (list Z) :=
  match fuel, ws with
  | S fuel', _ :: _ => take 16 ws :: blocks fuel' (drop 16 ws)
  | _, _ => []
  end.

(** Message schedule: [win] holds the last sixteen words, oldest first. *)
Fixpoint extend (n : nat) (win : list Z) : list Z :=
  match n with
  | O => []
  | S n' =>
      let x := rotl 1 (Z.lxor (Z.lxor (nth 13 win 0) (nth 8 win 0))
                              (Z.lxor (nth 2 win 0) (nth 0 win 0))) in
      x :: extend n' (tail win ++ [x])
  end.

Definition schedule (block : list Z) : list Z := block ++ extend 64 block.

Definition state : Type := Z * Z * Z * Z * Z.

Definition round (st : state) (iw : nat * Z) : state :=
  let '(a, b, c, d, e) := st in
  let '(i, w) := iw in
  let '(f, k) :=
    if (i <? 20)%nat then
      (Z.lor (Z.land b c) (Z.land (Z.lxor b 0xFFFFFFFF) d), 0x5A827999)
    else if (i <? 40)%nat then
      (Z.lxor (Z.lxor b c) d, 0x6ED9EBA1)
    else if (i <? 60)%nat then
      (Z.lor (Z.lor (Z.land b c) (Z.land b d)) (Z.land c d), 0x8F1BBCDC)
    else
      (Z.lxor (Z.lxor b c) d, 0xCA62C1D6) in
  (w32 (rotl 5 a + f + e + k + w), a, rotl 30 b, c, d).

Definition compress (h : state) (block : list Z) : state :=
  let ws := schedule block in
  let '(a, b, c, d, e) := fold_left round (combine (seq 0 80) ws) h in
  let '(h0, h1, h2, h3, h4) := h in
  (w32 (h0 + a), w32 (h1 + b), w32 (h2 + c), w32 (h3 + d), w32 (h4 + e)).

Definition init : state :=
  (0x67452301, 0xEFCDAB89, 0x98BADCFE, 0x10325476, 0xC3D2E1F0).

(** [sha1(msg).digest()], as bytes. *)
Definition sha1_bytes (msg : list Z) : list Z :=
  let p := pad msg in
  let ws := words_of_bytes (length p) p in
  let '(h0, h1, h2, h3, h4) := fold_left compress (blocks (length ws) ws) init in
  be_bytes 4 h0 ++ be_bytes 4 h1 ++ be_bytes 4 h2 ++ be_bytes 4 h3 ++ be_bytes 4 h4.

Definition sha1 (msg : string) : string :=
  string_of_bytes (sha1_bytes (bytes_of_string msg)).

End hashlib.

Module hmac.
Import hashlib.

Definition blocksize : nat := 64.

(** [hmac.new(key, msg, digestmod=sha1).digest()] *)
Definition digest_bytes (key msg : list Z) : list Z :=
  let key := if (blocksize <? length key)%nat then sha1_bytes key else key in
  let key := (key ++ replicate (blocksize - length key) 0)%list in
  let inner := sha1_bytes (map (Z.lxor 0x36) key ++ msg)%list in
  sha1_bytes (map (Z.lxor 0x5C) key ++ inner)%list.

Definition digest (key msg : string) : string :=
  string_of_bytes (digest_bytes (bytes_of_string key) (bytes_of_string msg)).

End hmac.

Module base64.
Import hashlib.

Definition alphabet : string :=
  "ABCDEFGHIJKLMNOPQRSTUVWXYZabcdefghijklmnopqrstuvwxyz0123456789+/".

Definition digit (i : Z) : ascii :=
  match String.get (Z.to_nat (Z.land i 63)) alphabet with
  | Some c => c
  | None => "="%char
  end.

Fixpoint encode (l : list Z) : string :=
  match l with
  | [] => ""
  | [b0] =>
      String (digit (Z.shiftr b0 2))
        (String (digit (Z.shiftl b0 4)) "==")
  | [b0; b1] =>
      String (digit (Z.shiftr b0 2))
        (String (digit (Z.lor (Z.shiftl b0 4) (Z.shiftr b1 4)))
           (String (digit (Z.shiftl b1 2)) "="))
  | b0 :: b1 :: b2 :: l' =>
      String (digit (Z.shiftr b0 2))
        (String (digit (Z.lor (Z.shiftl b0 4) (Z.shiftr b1 4)))
           (String (digit (Z.lor (Z.shiftl b1 2) (Z.shiftr b2 6)))
              (String (digit b2) (encode l'))))
  end.

Definition b64encode (s : string) : string := encode (bytes_of_string s).

End base64.

(** ** [xml.etree.ElementTree]

    Elements without attributes and with unqualified or [{uri}name] tags.
    A parsed document is an [Element] tree.  Elements under construction are
    objects of a [store], addressed by their index, so that a child returned
    by [SubElement] and later assigned to is the very node its parent holds. *)

Module ElementTree.

Inductive Element :=
| Elem (tag : string) (text : option string) (children : list Element)
       (tail : option string).

Definition tag (e : Element) : string := let 'Elem t _ _ _ := e in t.
Definition text (e : Element) : option string := let 'Elem _ x _ _ := e in x.
Definition children (e : Element) : list Element := let 'Elem _ _ c _ := e in c.

Record node := Node {
  node_tag : string;
  node_text : option string;
  node_children : list nat;
  node_tail : option string
}.

Definition store := list node.

(** [Element(tag)] *)
Definition new_Element (tg : string) (st : store) : nat * store :=
  (length st, st ++ [Node tg None [] None]).

(** [SubElement(parent, tag)] *)
Definition SubElement (parent : nat) (tg : string) (st : store) : nat * store :=
  let '(child, st) := new_Element tg st in
  (child,
   alter (fun n => Node (node_tag n) (node_text n) (node_children n ++ [child])
                        (node_tail n)) parent st).

(** [e.text = v] *)
Definition set_text (e : nat) (v : string) (st : store) : store :=
  alter (fun n => Node (node_tag n) (Some v) (node_children n) (node_tail n)) e st.

(** The tree reachable from [e]; [fuel] bounds its depth. *)
Fixpoint snapshot (fuel : nat) (st : store) (e : nat) : Element :=
  match fuel, st !! e with
  | S fuel', Some n =>
      Elem (node_tag n) (node_text n) (map (snapshot fuel' st) (node_children n))
           (node_tail n)
  | _, _ => Elem "" None [] None
  end.

(** [_escape_cdata] *)
Fixpoint escape_cdata (s : string) : string :=
  match s with
  | EmptyString => EmptyString
  | String c s' =>
      (if Ascii.eqb c "&" then "&amp;"
       else if Ascii.eqb c "<" then "&lt;"
       else if Ascii.eqb c ">" then "&gt;"
       else String c "") +:+ escape_cdata s'
  end.

Definition nonempty (x : option string) : bool :=
  match x with
  | Some (String _ _) => true
  | _ => false
  end.

Definition escaped (x : option string) : string :=
  if nonempty x then escape_cdata (default "" x) else "".

(** The serializer behind [tostring]: an element with neither text nor
    children is written as an empty-element tag. *)
Fixpoint serialize (e : Element) : string :=
  let 'Elem tg txt cs tl := e in
  let inner := (fix go (l : list Element) : string :=
                  match l with
                  | [] => ""
                  | c :: l' => serialize c +:+ go l'
                  end) cs in
  "<" +:+ tg +:+
    (if nonempty txt || negb (bool_decide (cs = []))
     then ">" +:+ escaped txt +:+ inner +:+ "</" +:+ tg +:+ ">"
     else " />")
    +:+ escaped tl.

(** [tostring(root)] for a root held in a store. *)
Definition tostring (st : store) (root : nat) : string :=
  serialize (snapshot (S (length st)) st root).

(** One step of a path: the children of the current elements that carry
    the step's tag, in document order. *)
Definition select_child (tg : string) (result : list Element) : list Element :=
  e ← result; filter (fun c => tag c = tg) (children e).

(** [e.findall(path)], the path given as its list of steps. *)
Definition findall (e : Element) (path : list string) : list Element :=
  fold_left (fun result step => select_child step result) path [e].

(** [e.findtext(path)]: the text of the first match ([""] when it has
    none), [None] when nothing matches. *)
Definition findtext (e : Element) (path : list string) : option string :=
  match head (findall e path) with
  | Some c => Some (default "" (text c))
  | None => None
  end.

End ElementTree.

(** ** [libcloud.utils] *)

(** Modelled from the spec: [libcloud.utils.fixxpath], absent from the
    sources at hand.  Every step of the relative path is qualified with the
    namespace URI ("all element lookups use one fixed XML namespace URI");
    the qualified path is kept as the list of its steps, which is how
    ElementTree reads the [/]-joined string. *)
Definition fixxpath (xpath : string) (namespace : string) : list string :=
  map (fun e => "{" +:+ namespace +:+ "}" +:+ e) (Py.split "/" xpath).

(** Modelled from the spec: [libcloud.utils.findtext], absent from the
    sources at hand: the text of the namespaced child field, an absent value
    when the field is missing. *)
Definition findtext (element : ElementTree.Element) (xpath : string)
    (namespace : string) : option string :=
  ElementTree.findtext element (fixxpath xpath namespace).

(** ** Drivers, entities and errors *)

Record ConnectionClass := { host : string }.

(** A driver object: the class attributes and the credentials it was
    instantiated with. *)
Record StorageDriver := {
  name : string;
  connectionCls : ConnectionClass;
  hash_type : string;
  ex_location_name : string;
  driver_key : string;
  driver_secret : string
}.

Definition S3Connection : ConnectionClass := {| host := "s3.amazonaws.com" |}.
Definition S3USWestConnection : ConnectionClass := {| host := S3_US_WEST_HOST |}.
Definition S3EUWestConnection : ConnectionClass := {| host := S3_EU_WEST_HOST |}.
Definition S3APSEConnection : ConnectionClass := {| host := S3_AP_SOUTHEAST_HOST |}.
Definition S3APNEConnection : ConnectionClass := {| host := S3_AP_NORTHEAST_HOST |}.

Definition S3StorageDriver (key secret : string) : StorageDriver :=
  {| name := "Amazon S3 (standard)"; connectionCls := S3Connection;
     hash_type := "md5"; ex_location_name := "";
     driver_key := key; driver_secret := secret |}.

Definition S3USWestStorageDriver (key secret : string) : StorageDriver :=
  {| name := "Amazon S3 (us-west-1)"; connectionCls := S3USWestConnection;
     hash_type := "md5"; ex_location_name := "us-west-1";
     driver_key := key; driver_secret := secret |}.

Definition S3EUWestStorageDriver (key secret : string) : StorageDriver :=
  {| name := "Amazon S3 (eu-west-1)"; connectionCls := S3EUWestConnection;
     hash_type := "md5"; ex_location_name := "EU";
     driver_key := key; driver_secret := secret |}.

Definition S3APSEStorageDriver (key secret : string) : StorageDriver :=
  {| name := "Amazon S3 (ap-southeast-1)"; connectionCls := S3APSEConnection;
     hash_type := "md5"; ex_location_name := "ap-southeast-1";
     driver_key := key; driver_secret := secret |}.

Definition S3APNEStorageDriver (key secret : string) : StorageDriver :=
  {| name := "Amazon S3 (ap-northeast-1)"; connectionCls := S3APNEConnection;
     hash_type := "md5"; ex_location_name := "ap-northeast-1";
     driver_key := key; driver_secret := secret |}.

(** The [driver=] argument of an error: the class [S3StorageDriver] itself
    (as [parse_error] passes it) or a driver object. *)
Inductive DriverRef :=
| S3StorageDriver_class
| driver_object (d : StorageDriver).

(** [Container(name, extra, driver)]; a name read from a document may be
    [None]. *)
Record Container := {
  container_name : option string;
  container_extra : option (gmap string (option string));
  container_driver : StorageDriver
}.

(** [Object(name, size, hash, extra, meta_data, container, driver)] *)
Record Object := {
  object_name : option string;
  object_size : option string;
  object_hash : option string;
  object_extra : option (gmap string (option string));
  object_meta_data : gmap string (gmap string (option string));
  object_container : Container;
  object_driver : StorageDriver
}.

Inductive Exception :=
| InvalidCredsError (value : string)
| LibcloudError (value : string) (driver : option DriverRef)
| ContainerIsNotEmptyError (value : string) (cname : option string)
    (driver : StorageDriver)
| ContainerDoesNotExistError (value : option string) (cname : option string)
    (driver : StorageDriver).

(** The outcome of a call: a returned value or a raised exception. *)
Inductive Result (A : Type) :=
| Return (a : A)
| Raise (e : Exception).
Arguments Return {A} a.
Arguments Raise {A} e.

(** ** [class S3Response] *)

Record Response := {
  status : Z;
  body : string;
  object : ElementTree.Element
}.

Definition valid_response_codes : list Z := [httplib.NOT_FOUND; httplib.CONFLICT].

Definition success (self : Response) : bool :=
  let i := status self in
  (200 <=? i) && (i <=? 299) || bool_decide (i ∈ valid_response_codes).

Definition parse_error (self : Response) : Result unit :=
  if status self =? 403 then
    Raise (InvalidCredsError (body self))
  else if status self =? 301 then
    Raise (LibcloudError ("This bucket is located in a different " +:+
                          "region. Please use the correct driver.")
                         (Some S3StorageDriver_class))
  else
    Raise (LibcloudError ("Unknown error. Status code: " +:+ Py.str_int (status self))
                         (Some S3StorageDriver_class)).

(** ** [class S3Connection] *)

(** The connection object: credentials, the method and path of the request
    being prepared, and the inherited [add_default_headers] hook. *)
Record Connection := {
  user_id : string;
  key : string;
  method : string;
  action : string;
  add_default_headers : list (string * string) → list (string * string)
}.

Definition nl : string := String "010"%char "".

Definition special_header_keys : list string :=
  ["content-md5"; "content-type"; "date"].

(** [copy.deepcopy] of a dict of strings, as a value. *)
Definition deepcopy (headers : list (string * string)) : list (string * string) :=
  headers.

(** [d.keys()]: the keys, in the dict's own order. *)
Definition keys (d : gmap string string) : list string := (map_to_list d).*1.

(** The loop over [headers_copy.iteritems()]. *)
Definition collect_special (headers_copy : list (string * string))
    (special_header_values : gmap string string) : gmap string string :=
  fold_left
    (fun shv kv =>
       let '(key, value) := kv in
       if bool_decide (Py.lower key ∈ special_header_keys)
       then <[Py.lower key := Py.strip (Py.lower value)]> shv
       else shv)
    headers_copy special_header_values.

(** The dict [special_header_values] as it stands before the keys are
    sorted. *)
Definition special_values (headers : list (string * string))
    (expires : Py.value) : gmap string string :=
  let special_header_values : gmap string string := {[ "date" := "" ]} in
  let headers_copy := deepcopy headers in
  let special_header_values := collect_special headers_copy special_header_values in
  let special_header_values :=
    if bool_decide (is_Some (special_header_values !! "content-md5"))
    then special_header_values
    else <["content-md5" := ""]> special_header_values in
  let special_header_values :=
    if bool_decide (is_Some (special_header_values !! "content-type"))
    then special_header_values
    else <["content-type" := ""]> special_header_values in
  if Py.truthy expires
  then <["date" := Py.str expires]> special_header_values
  else special_header_values.

(** The value of [string_to_sign] that is handed to [hmac.new]. *)
Definition string_to_sign (method : string) (headers : list (string * string))
    (expires : Py.value) (path : string) : string :=
  let special_header_values := special_values headers expires in
  let keys_sorted := merge_sort String.le (keys special_header_values) in
  let buf := [method] ++ map (fun key => special_header_values !!! key) keys_sorted in
  let string_to_sign := Py.join nl buf in
  string_to_sign +:+ nl +:+ path.

Definition _get_aws_auth_param (method : string) (headers : list (string * string))
    (params : gmap string string) (expires : Py.value) (secret_key : string)
    (path : string) : string :=
  let string_to_sign := string_to_sign method headers expires path in
  let b64_hmac := base64.b64encode (hmac.digest secret_key string_to_sign) in
  b64_hmac.

(** The interpreter state [add_default_params] runs in: the dict objects,
    addressed by reference, and the clock, given as the successive readings
    of [time.time()]. *)
Record World := {
  heap : gmap nat (gmap string string);
  clock : nat → Q;
  tick : nat
}.

Definition time_time (w : World) : Q * World :=
  (clock w (tick w), {| heap := heap w; clock := clock w; tick := S (tick w) |}).

(** [d[k] = v] on the dict object at [d]. *)
Definition setitem (d : nat) (k v : string) (w : World) : World :=
  {| heap := alter (insert k v) d (heap w); clock := clock w; tick := tick w |}.

Definition add_default_params (self : Connection) (params : nat) (w : World)
    : nat * World :=
  let '(t, w) := time_time w in
  let expires := Py.str_int (Py.int_of_float t + EXPIRATION_SECONDS) in
  let headers := add_default_headers self [] in
  let signature :=
    _get_aws_auth_param (method self) headers (heap w !!! params)
                        (Py.VStr expires) (key self) (action self) in
  let w := setitem params "Signature" signature w in
  let w := setitem params "AWSAccessKeyId" (user_id self) w in
  let w := setitem params "Expires" expires w in
  (params, w).

(** ** [class S3StorageDriver] *)

(** What a driver hands to [self.connection.request]. *)
Record Request := {
  req_action : string;
  req_data : option string;
  req_method : string
}.

(** Driver operations run against a connection, which answers a request
    with a response or raises; the state threaded through an operation is
    the sequence of requests issued so far. *)
Definition Op (A : Type) : Type := list Request → Result A * list Request.

#[local] Instance Op_ret : MRet Op := λ A a log, (Return a, log).
#[local] Instance Op_bind : MBind Op := λ A B f m log,
  match m log with
  | (Return a, log') => f a log'
  | (Raise e, log') => (Raise e, log')
  end.

Definition raise {A} (e : Exception) : Op A := λ log, (Raise e, log).

Section driver.

(** [self.connection.request], the transport behind the driver. *)
Variable connection : Request → Result Response.

Definition connection_request (action : string) (data : option string)
    (method : string) : Op Response :=
  λ log,
    let r := {| req_action := action; req_data := data; req_method := method |} in
    (connection r, log ++ [r]).

Definition _to_container (self : StorageDriver) (element : ElementTree.Element)
    : Container :=
  let extra : gmap string (option string) :=
    {[ "creation_date" := findtext element "CreationDate" NAMESPACE ]} in
  {| container_name := findtext element "Name" NAMESPACE;
     container_extra := Some extra;
     container_driver := self |}.

Definition _to_obj (self : StorageDriver) (element : ElementTree.Element)
    (container : Container) : Object :=
  let owner_id := findtext element "Owner/ID" NAMESPACE in
  let owner_display_name := findtext element "Owner/DisplayName" NAMESPACE in
  let meta_data : gmap string (gmap string (option string)) :=
    {[ "owner" := <["display_name" := owner_display_name]> {[ "id" := owner_id ]} ]} in
  {| object_name := findtext element "Key" NAMESPACE;
     object_size := findtext element "Size" NAMESPACE;
     object_hash := findtext element "ETag" NAMESPACE;
     object_extra := None;
     object_meta_data := meta_data;
     object_container := container;
     object_driver := self |}.

Definition _to_containers (self : StorageDriver) (obj : ElementTree.Element)
    (xpath : string) : list Container :=
  map (_to_container self) (ElementTree.findall obj (fixxpath xpath NAMESPACE)).

Definition _to_objs (self : StorageDriver) (obj : ElementTree.Element)
    (xpath : string) (container : Container) : list Object :=
  map (fun element => _to_obj self element container)
      (ElementTree.findall obj (fixxpath xpath NAMESPACE)).

Definition list_containers (self : StorageDriver) : Op (list Container) :=
  response ← connection_request "/" None "GET";
  if status response =? httplib.OK then
    mret (_to_containers self (object response) "Buckets/Bucket")
  else
    raise (LibcloudError ("Unexpected status code: " +:+ Py.str_int (status response))
                         (Some (driver_object self))).

Definition list_container_objects (self : StorageDriver) (container : Container)
    : Op (list Object) :=
  response ← connection_request ("/" +:+ Py.fmt_s (container_name container))
                                None "GET";
  if status response =? httplib.OK then
    mret (_to_objs self (object response) "Contents" container)
  else
    raise (LibcloudError ("Unexpected status code: " +:+ Py.str_int (status response))
                         (Some (driver_object self))).

(** The request body of [create_container]: the three statements that
    build the element tree, then [tostring(root)]. *)
Definition create_container_body (self : StorageDriver) : string :=
  let '(root, st) := ElementTree.new_Element "CreateBucketConfiguration" [] in
  let '(child, st) := ElementTree.SubElement root "LocationConstraint" st in
  let st := ElementTree.set_text child (ex_location_name self) st in
  ElementTree.tostring st root.

Definition create_container (self : StorageDriver) (cname : string)
    : Op Container :=
  response ← connection_request ("/" +:+ cname)
                                (Some (create_container_body self)) "PUT";
  if status response =? httplib.OK then
    mret {| container_name := Some cname; container_extra := None;
            container_driver := self |}
  else if status response =? httplib.CONFLICT then
    raise (LibcloudError ("Container with this name already exists." +:+
                          "The name must be unique across all the " +:+
                          "containers in the system") None)
  else
    raise (LibcloudError ("Unexpected status code: " +:+ Py.str_int (status response))
                         (Some (driver_object self))).

Definition delete_container (self : StorageDriver) (container : Container)
    : Op bool :=
  response ← connection_request ("/" +:+ Py.fmt_s (container_name container))
                                None "DELETE";
  if status response =? httplib.NO_CONTENT then
    mret true
  else if status response =? httplib.CONFLICT then
    raise (ContainerIsNotEmptyError ("Container must be empty" +:+
                                     " before it can be deleted.")
                                    (container_name container) self)
  else if status response =? httplib.NOT_FOUND then
    raise (ContainerDoesNotExistError None (container_name container) self)
  else
    mret false.

End driver.

(** ** Notions the statements are phrased in *)

(** What a case-insensitive lookup of the lower-case key [k] finds in the
    header dict: the value of the item whose lowered key is [k]; if several
    spellings of the key are present, the one the dict iterates last. *)
Fixpoint header_value (k : string) (headers : list (string * string))
    : option string :=
  match headers with
  | [] => None
  | (key, value) :: rest =>
      match header_value k rest with
      | Some v => Some v
      | None => if decide (Py.lower key = k) then Some value else None
      end
  end.

(** A header value, lower-cased and stripped of surrounding whitespace. *)
Definition normalize (value : string) : string := Py.strip (Py.lower value).

(** The line a special header contributes to the string to sign: its
    normalized value, the empty string when the header is missing. *)
Definition slot (k : string) (headers : list (string * string)) : string :=
  default "" (normalize <$> header_value k headers).

(** Two header dicts agree on the three special keys, read
    case-insensitively. *)
Definition headers_agree (h1 h2 : list (string * string)) : Prop :=
  ∀ k, k ∈ special_header_keys → header_value k h1 = header_value k h2.

(** The expiry an invocation of [add_default_params] in world [w] is to
    compute: the clock reading at that invocation, in whole seconds, plus
    900, as a decimal numeral. *)
Definition expires_at (w : World) : string :=
  Py.str_int (Py.int_of_float (clock w (tick w)) + 900).

(** The signature over the connection's method and path with that expiry. *)
Definition signature_at (self : Connection) (w : World) (d : gmap string string)
    : string :=
  _get_aws_auth_param (method self) (add_default_headers self []) d
                      (Py.VStr (expires_at w)) (key self) (action self).

(** The three authentication parameters. *)
Definition auth_keys : list string := ["Signature"; "AWSAccessKeyId"; "Expires"].

(** A list-containers document: a root whose [Buckets] child holds the
    bucket entries, each with a [Name] and a [CreationDate] text field; all
    tags are qualified with the namespace. *)
Definition qualified (tag : string) : string := "{" +:+ NAMESPACE +:+ "}" +:+ tag.

Definition text_field (tag text : string) : ElementTree.Element :=
  ElementTree.Elem (qualified tag) (Some text) [] None.

Definition Bucket (bname creation_date : string) : ElementTree.Element :=
  ElementTree.Elem (qualified "Bucket") None
    [text_field "Name" bname; text_field "CreationDate" creation_date] None.

Definition ListAllMyBucketsResult (before : list ElementTree.Element)
    (buckets : list ElementTree.Element) (after : list ElementTree.Element)
    : ElementTree.Element :=
  ElementTree.Elem (qualified "ListAllMyBucketsResult") None
    (before ++ ElementTree.Elem (qualified "Buckets") None buckets None :: after) None.

(** A list-objects document with one entry. *)
Definition Contents (okey size etag owner_id owner_name : string)
    : ElementTree.Element :=
  ElementTree.Elem (qualified "Contents") None
    [text_field "Key" okey; text_field "Size" size; text_field "ETag" etag;
     ElementTree.Elem (qualified "Owner") None
       [text_field "ID" owner_id; text_field "DisplayName" owner_name] None] None.

Definition ListBucketResult (contents : list ElementTree.Element)
    : ElementTree.Element :=
  ElementTree.Elem (qualified "ListBucketResult") None
    (text_field "Name" "photos" :: contents) None.

(** The element tree that [create_container] is to serialize: one
    [LocationConstraint] child holding the location label. *)
Definition CreateBucketConfiguration (location : string) : ElementTree.Element :=
  ElementTree.Elem "CreateBucketConfiguration" None
    [ElementTree.Elem "LocationConstraint" (Some location) [] None] None.

(** * Evaluation on concrete inputs *)

Example sha1_abc :
  hashlib.sha1_bytes (hashlib.bytes_of_string "abc") =
  [0xa9; 0x99; 0x3e; 0x36; 0x47; 0x06; 0x81; 0x6a; 0xba; 0x3e;
   0x25; 0x71; 0x78; 0x50; 0xc2; 0x6c; 0x9c; 0xd0; 0xd8; 0x9d].
Proof. vm_compute. reflexivity. Qed.

Example sha1_empty :
  hashlib.sha1_bytes [] =
  [0xda; 0x39; 0xa3; 0xee; 0x5e; 0x6b; 0x4b; 0x0d; 0x32; 0x55;
   0xbf; 0xef; 0x95; 0x60; 0x18; 0x90; 0xaf; 0xd8; 0x07; 0x09].
Proof. vm_compute. reflexivity. Qed.

(** RFC 2202, test case 2. *)
Example hmac_sha1_rfc2202 :
  hmac.digest_bytes (hashlib.bytes_of_string "Jefe")
                    (hashlib.bytes_of_string "what do ya want for nothing?") =
  [0xef; 0xfc; 0xdf; 0x6a; 0xe5; 0xeb; 0x2f; 0xa2; 0xd2; 0x74;
   0x16; 0xd5; 0xf1; 0x84; 0xdf; 0x9c; 0x25; 0x9a; 0x7c; 0x79].
Proof. vm_compute. reflexivity. Qed.

Example b64encode_foobar :
  base64.b64encode "foobar" = "Zm9vYmFy" /\ base64.b64encode "fooba" = "Zm9vYmE="
  /\ base64.b64encode "foob" = "Zm9vYg==".
Proof. vm_compute. auto. Qed.

Example create_body_eu :
  create_container_body (S3EUWestStorageDriver "k" "s") =
  "<CreateBucketConfiguration><LocationConstraint>EU</LocationConstraint></CreateBucketConfiguration>".
Proof. vm_compute. reflexivity. Qed.

Example create_body_us :
  create_container_body (S3StorageDriver "k" "s") =
  "<CreateBucketConfiguration><LocationConstraint /></CreateBucketConfiguration>".
Proof. vm_compute. reflexivity. Qed.

Example to_objs_one_entry :
  _to_objs (S3StorageDriver "id" "secret")
           (ListBucketResult [Contents "a.txt" "3" "900150983cd2" "af3c" "alice"])
           "Contents"
           {| container_name := Some "photos"; container_extra := None;
              container_driver := S3StorageDriver "id" "secret" |} =
  [ {| object_name := Some "a.txt"; object_size := Some "3";
       object_hash := Some "900150983cd2"; object_extra := None;
       object_meta_data :=
         {[ "owner" := <["display_name" := Some "alice"]> {[ "id" := Some "af3c" ]} ]};
       object_container :=
         {| container_name := Some "photos"; container_extra := None;
            container_driver := S3StorageDriver "id" "secret" |};
       object_driver := S3StorageDriver "id" "secret" |} ].
Proof. reflexivity. Qed.

(** The reference signature of a GET of the root path, as Python's [hmac]
    and [base64] compute it. *)
Example signature_reference :
  _get_aws_auth_param "GET" [] ∅ (Py.VStr "1234567890") "secret" "/" =
  "3cCwxNedzO2leuje4HGkiZDVJPU=".
Proof. vm_compute. reflexivity. Qed.

(** * Response classification *)

(** C4: the success predicate of the response holds exactly for the
    statuses 200..299 and for the two whitelisted codes 404 (not found) and
    409 (conflict); every other status is a non-success. *)
Theorem success_iff (self : Response) :
  success self = true ↔
  (200 ≤ status self ≤ 299 ∨ status self = 404 ∨ status self = 409).
Proof.
  unfold success, valid_response_codes, httplib.NOT_FOUND, httplib.CONFLICT.
  rewrite orb_true_iff, andb_true_iff, bool_decide_eq_true.
  rewrite !elem_of_cons, elem_of_nil, !Z.leb_le.
  tauto.
Qed.

Lemma parse_error_raises (self : Response) : ∃ e, parse_error self = Raise e.
Proof. unfold parse_error. repeat case_match; eauto. Qed.

(** C5: [parse_error] always raises, and what it raises is decided by the
    status alone: 403 gives the invalid-credentials error, 301 the
    wrong-region error that asks for the correct driver, and every other
    status the catch-all unknown error, whose message ends with the decimal
    status code, so that the code can be read back from it. *)
Theorem parse_error_kinds (self : Response) :
  (status self = 403 → parse_error self = Raise (InvalidCredsError (body self))) ∧
  (status self = 301 →
     parse_error self =
     Raise (LibcloudError
              "This bucket is located in a different region. Please use the correct driver."
              (Some S3StorageDriver_class))) ∧
  (status self ≠ 403 → status self ≠ 301 →
     parse_error self =
     Raise (LibcloudError ("Unknown error. Status code: " +:+ Py.str_int (status self))
                          (Some S3StorageDriver_class)) ∧
     ∀ other : Response, parse_error other = parse_error self →
                         status other = status self).
Proof.
  unfold parse_error. split; [|split].
  - intros ->. reflexivity.
  - intros ->. reflexivity.
  - intros H403 H301.
    destruct (Z.eqb_spec (status self) 403) as [?|_]; [done|].
    destruct (Z.eqb_spec (status self) 301) as [?|_]; [done|].
    split; [reflexivity|]. intros other.
    destruct (Z.eqb_spec (status other) 403) as [?|_]; [done|].
    destruct (Z.eqb_spec (status other) 301) as [?|_].
    + intros [= H].
    + intros [= H]. apply (inj (String.app "")) in H.
      unfold Py.str_int in H. by apply (inj pretty) in H.
Qed.

Lemma parse_error_kinds_witness :
  let response i := {| status := i; body := "denied";
                       object := ElementTree.Elem "Error" None [] None |} in
  parse_error (response 403) = Raise (InvalidCredsError "denied") ∧
  parse_error (response 301) =
    Raise (LibcloudError
             "This bucket is located in a different region. Please use the correct driver."
             (Some S3StorageDriver_class)) ∧
  parse_error (response 500) =
    Raise (LibcloudError "Unknown error. Status code: 500"
                         (Some S3StorageDriver_class)).
Proof.
  intros response. split; [|split].
  - apply (parse_error_kinds (response 403)). reflexivity.
  - apply (parse_error_kinds (response 301)). reflexivity.
  - apply (parse_error_kinds (response 500)); simpl; lia.
Defined.

(** * Container operations *)

Section operations.

Variable connection : Request → Result Response.

(** An operation that starts with a request issues exactly that request,
    whatever the connection answers. *)
Lemma request_then_log {A} action data method (k : Response → Op A) log :
  (∀ r l, (k r l).2 = l) →
  ((connection_request connection action data method ≫= k) log).2 =
  log ++ [{| req_action := action; req_data := data; req_method := method |}].
Proof.
  intros Hk. unfold mbind, Op_bind, connection_request.
  destruct (connection _); [apply Hk | reflexivity].
Qed.

Lemma request_then_result {A} action data method (k : Response → Op A) log response :
  connection {| req_action := action; req_data := data; req_method := method |}
    = Return response →
  ((connection_request connection action data method ≫= k) log).1 =
  (k response (log ++ [{| req_action := action; req_data := data;
                          req_method := method |}])).1.
Proof.
  intros Hc. unfold mbind, Op_bind, connection_request. by rewrite Hc.
Qed.

(** C1: [delete_container] issues one request, a DELETE to the path
    [/name] of the container, and maps the status of the response it gets
    back: 204 returns [True]; 409 raises the container-is-not-empty error
    and 404 the container-does-not-exist error, both carrying the name of
    the container passed in; any other status returns [False] without
    raising. *)
Theorem delete_container_status_table (self : StorageDriver) (container : Container)
    (log : list Request) (response : Response) :
  let r := {| req_action := "/" +:+ Py.fmt_s (container_name container);
              req_data := None; req_method := "DELETE" |} in
  connection r = Return response →
  (delete_container connection self container log).2 = log ++ [r] ∧
  (status response = 204 →
     (delete_container connection self container log).1 = Return true) ∧
  (status response = 409 →
     (delete_container connection self container log).1 =
     Raise (ContainerIsNotEmptyError
              "Container must be empty before it can be deleted."
              (container_name container) self)) ∧
  (status response = 404 →
     (delete_container connection self container log).1 =
     Raise (ContainerDoesNotExistError None (container_name container) self)) ∧
  (status response ≠ 204 → status response ≠ 409 → status response ≠ 404 →
     (delete_container connection self container log).1 = Return false).
Proof.
  intros r Hc. unfold delete_container. split.
  { apply request_then_log. intros resp l. by repeat case_match. }
  rewrite (request_then_result _ _ _ _ _ _ Hc).
  unfold httplib.NO_CONTENT, httplib.CONFLICT, httplib.NOT_FOUND.
  repeat split.
  - intros ->. reflexivity.
  - intros ->. reflexivity.
  - intros ->. reflexivity.
  - intros H204 H409 H404.
    destruct (Z.eqb_spec (status response) 204); [done|].
    destruct (Z.eqb_spec (status response) 409); [done|].
    destruct (Z.eqb_spec (status response) 404); [done|].
    reflexivity.
Qed.

(** C6: [create_container] issues one request, a PUT to [/name] whose body
    is the serialized [CreateBucketConfiguration] element with the single
    child [LocationConstraint] holding the driver's location label: the
    EU-West driver sends [<LocationConstraint>EU</LocationConstraint>],
    the US-standard driver's label is the empty string.  A 200 response
    returns the container of that name, a 409 response raises the
    name-already-exists error. *)
Theorem create_container_request_and_outcome (self : StorageDriver) (cname : string)
    (log : list Request) (response : Response) :
  let data := ElementTree.serialize (CreateBucketConfiguration (ex_location_name self)) in
  let r := {| req_action := "/" +:+ cname; req_data := Some data;
              req_method := "PUT" |} in
  connection r = Return response →
  (create_container connection self cname log).2 = log ++ [r] ∧
  (∀ k s, ElementTree.serialize
            (CreateBucketConfiguration (ex_location_name (S3EUWestStorageDriver k s))) =
          "<CreateBucketConfiguration><LocationConstraint>EU</LocationConstraint></CreateBucketConfiguration>") ∧
  (∀ k s, ex_location_name (S3StorageDriver k s) = "") ∧
  (status response = 200 →
     (create_container connection self cname log).1 =
     Return {| container_name := Some cname; container_extra := None;
               container_driver := self |}) ∧
  (status response = 409 →
     (create_container connection self cname log).1 =
     Raise (LibcloudError
              "Container with this name already exists.The name must be unique across all the containers in the system"
              None)).
Proof.
  intros data r Hc.
  assert (Hbody : create_container_body self = data) by reflexivity.
  unfold create_container. rewrite Hbody. split.
  { apply request_then_log. intros resp l. by repeat case_match. }
  rewrite (request_then_result _ _ _ _ _ _ Hc).
  unfold httplib.OK, httplib.CONFLICT.
  repeat split.
  - intros ->. reflexivity.
  - intros ->. reflexivity.
Qed.

End operations.

Lemma delete_container_status_table_witness :
  let self := S3StorageDriver "id" "secret" in
  let container := {| container_name := Some "photos"; container_extra := None;
                      container_driver := self |} in
  let response i := {| status := i; body := "";
                       object := ElementTree.Elem "" None [] None |} in
  let answer i : Request → Result Response := λ _, Return (response i) in
  (delete_container (answer 204) self container []).2 =
    [{| req_action := "/photos"; req_data := None; req_method := "DELETE" |}] ∧
  (delete_container (answer 204) self container []).1 = Return true ∧
  (delete_container (answer 409) self container []).1 =
    Raise (ContainerIsNotEmptyError
             "Container must be empty before it can be deleted."
             (Some "photos") self) ∧
  (delete_container (answer 404) self container []).1 =
    Raise (ContainerDoesNotExistError None (Some "photos") self) ∧
  (delete_container (answer 500) self container []).1 = Return false.
Proof.
  intros self container response answer.
  pose proof (λ i, delete_container_status_table (answer i) self container []
                     (response i) eq_refl) as H.
  split; [apply (H 204)|]. split; [apply (H 204); reflexivity|].
  split; [apply (H 409); reflexivity|]. split; [apply (H 404); reflexivity|].
  apply (H 500); simpl; lia.
Defined.

Lemma create_container_request_and_outcome_witness :
  let self := S3EUWestStorageDriver "id" "secret" in
  let response i := {| status := i; body := "";
                       object := ElementTree.Elem "" None [] None |} in
  let answer i : Request → Result Response := λ _, Return (response i) in
  (create_container (answer 200) self "photos" []).2 =
    [{| req_action := "/photos";
        req_data := Some "<CreateBucketConfiguration><LocationConstraint>EU</LocationConstraint></CreateBucketConfiguration>";
        req_method := "PUT" |}] ∧
  (create_container (answer 200) self "photos" []).1 =
    Return {| container_name := Some "photos"; container_extra := None;
              container_driver := self |} ∧
  (create_container (answer 409) self "photos" []).1 =
    Raise (LibcloudError
             "Container with this name already exists.The name must be unique across all the containers in the system"
             None).
Proof.
  intros self response answer.
  pose proof (λ i, create_container_request_and_outcome (answer i) self "photos" []
                     (response i) eq_refl) as H.
  split; [apply (H 200)|]. split; [apply (H 200); reflexivity|].
  apply (H 409); reflexivity.
Defined.

(** * The canonical signer *)

Section signer.

Implicit Types (headers : list (string * string)) (m : gmap string string).

Lemma special_key_cases (k : string) :
  k ∈ special_header_keys ↔ k = "content-md5" ∨ k = "content-type" ∨ k = "date".
Proof.
  unfold special_header_keys. rewrite !elem_of_cons, elem_of_nil. tauto.
Qed.

Lemma collect_special_cons key value headers m :
  collect_special ((key, value) :: headers) m =
  collect_special headers
    (if bool_decide (Py.lower key ∈ special_header_keys)
     then <[Py.lower key := normalize value]> m else m).
Proof. reflexivity. Qed.

(** What the loop leaves under a key: the normalized value of the header
    that a case-insensitive lookup finds, else what was there before. *)
Lemma collect_special_lookup headers m k :
  collect_special headers m !! k =
  if decide (k ∈ special_header_keys)
  then match header_value k headers with
       | Some v => Some (normalize v)
       | None => m !! k
       end
  else m !! k.
Proof.
  revert m. induction headers as [|[key value] rest IH]; intros m.
  - simpl. by case_decide.
  - rewrite collect_special_cons, IH. simpl.
    case_decide as Hk.
    + destruct (header_value k rest); [done|].
      case_decide as Heq; subst.
      * by rewrite bool_decide_eq_true_2, lookup_insert_eq.
      * case_bool_decide; [by rewrite lookup_insert_ne|done].
    + case_bool_decide as Hkey; [|done].
      rewrite lookup_insert_ne; [done|]. by intros <-.
Qed.

Lemma collect_from_date headers k :
  collect_special headers {[ "date" := "" ]} !! k =
  if decide (k = "date") then Some (slot "date" headers)
  else if decide (k ∈ special_header_keys)
       then normalize <$> header_value k headers
       else None.
Proof.
  rewrite collect_special_lookup. unfold slot.
  destruct (decide (k = "date")) as [->|Hk].
  - rewrite decide_True by (apply special_key_cases; auto).
    by destruct (header_value "date" headers).
  - rewrite lookup_singleton_ne by done.
    case_decide; [|done]. by destruct (header_value k headers).
Qed.

(** The dict handed to the sort: exactly the three special keys, each
    bound to its line of the string to sign. *)
Lemma special_values_eq headers expires :
  special_values headers expires =
  <["content-md5" := slot "content-md5" headers]>
    (<["content-type" := slot "content-type" headers]>
       {[ "date" := if Py.truthy expires then Py.str expires
                    else slot "date" headers ]}).
Proof.
  assert (Hmd5 : "content-md5" ∈ special_header_keys)
    by (apply special_key_cases; auto).
  assert (Htype : "content-type" ∈ special_header_keys)
    by (apply special_key_cases; auto).
  apply map_eq; intros k. unfold special_values, deepcopy.
  set (m0 := collect_special headers _).
  set (m1 := if bool_decide (is_Some (m0 !! "content-md5")) then m0 else _).
  set (m2 := if bool_decide (is_Some (m1 !! "content-type")) then m1 else _).
  assert (H1 : ∀ k', m1 !! k' =
                     if decide (k' = "content-md5")
                     then Some (slot "content-md5" headers) else m0 !! k').
  { intros k'. unfold m1, m0. rewrite (collect_from_date _ "content-md5").
    rewrite decide_False, decide_True by done. unfold slot.
    destruct (header_value "content-md5" headers) as [v|] eqn:Hv; simpl.
    - rewrite ?bool_decide_eq_true_2 by eauto.
      case_decide as Hk; [subst k'|done].
      rewrite collect_from_date, decide_False, decide_True by done.
      by rewrite Hv.
    - rewrite ?bool_decide_eq_false_2 by (intros [? ?]; done).
      case_decide as Hk; [subst k'; by rewrite lookup_insert_eq|].
      by rewrite lookup_insert_ne. }
  assert (H2 : ∀ k', m2 !! k' =
                     if decide (k' = "content-type")
                     then Some (slot "content-type" headers) else m1 !! k').
  { intros k'. unfold m2. rewrite (H1 "content-type"), decide_False by done.
    unfold m0. rewrite (collect_from_date _ "content-type").
    rewrite decide_False, decide_True by done. unfold slot.
    destruct (header_value "content-type" headers) as [v|] eqn:Hv; simpl.
    - rewrite ?bool_decide_eq_true_2 by eauto.
      case_decide as Hk; [subst k'|done].
      rewrite H1, decide_False by done. unfold m0.
      rewrite collect_from_date, decide_False, decide_True by done.
      by rewrite Hv.
    - rewrite ?bool_decide_eq_false_2 by (intros [? ?]; done).
      case_decide as Hk; [subst k'; by rewrite lookup_insert_eq|].
      by rewrite lookup_insert_ne. }
  assert (H3 : ∀ k', m2 !! k' =
                     if decide (k' = "content-type")
                     then Some (slot "content-type" headers)
                     else if decide (k' = "content-md5")
                     then Some (slot "content-md5" headers)
                     else if decide (k' = "date")
                     then Some (slot "date" headers) else None).
  { intros k'. rewrite H2, H1. unfold m0. rewrite collect_from_date.
    repeat case_decide; try done.
    match goal with
    | H : _ ∈ special_header_keys |- _ =>
        apply special_key_cases in H; destruct H as [?|[?|?]]; done
    end. }
  destruct (decide (k = "content-md5")) as [->|?];
    [|destruct (decide (k = "content-type")) as [->|?];
      [|destruct (decide (k = "date")) as [->|?]]];
    destruct (Py.truthy expires);
    rewrite ?lookup_insert_eq, ?lookup_insert_ne, ?lookup_singleton_eq,
      ?lookup_singleton_ne, ?H3 by done;
    repeat (rewrite decide_False by done);
    repeat (rewrite decide_True by done); done.
Qed.

Lemma elem_of_keys m k : k ∈ keys m ↔ is_Some (m !! k).
Proof.
  unfold keys. rewrite list_elem_of_fmap. split.
  - intros ([k' v] & -> & Hin). apply elem_of_map_to_list in Hin. eauto.
  - intros [v Hv]. exists (k, v). by rewrite elem_of_map_to_list.
Qed.

(** Sorting the keys of a dict yields the one sorted list of its keys,
    in whatever order the dict keeps them. *)
Lemma sort_keys m (l : list string) :
  NoDup l → Sorted String.le l → (∀ k, k ∈ l ↔ is_Some (m !! k)) →
  merge_sort String.le (keys m) = l.
Proof.
  intros Hnd Hsorted Hdom. apply (Sorted_unique String.le).
  - apply Sorted_merge_sort, _.
  - done.
  - rewrite merge_sort_Permutation. apply NoDup_Permutation.
    + apply NoDup_fst_map_to_list.
    + done.
    + intros k. by rewrite elem_of_keys, Hdom.
Qed.

Lemma keys_sorted_three (a b c : string) :
  merge_sort String.le
    (keys (<["content-md5" := a]> (<["content-type" := b]> {[ "date" := c ]}))) =
  ["content-md5"; "content-type"; "date"].
Proof.
  apply sort_keys.
  - apply (bool_decide_unpack _). by vm_compute.
  - repeat constructor.
  - intros k. rewrite !elem_of_cons, elem_of_nil. split.
    + intros [->|[->|[->|[]]]]; by simplify_map_eq.
    + intros [v Hv].
      destruct (decide (k = "content-md5")); [auto|].
      destruct (decide (k = "content-type")); [auto|].
      destruct (decide (k = "date")); [auto|].
      by simplify_map_eq.
Qed.

Lemma app_assoc_str (s1 s2 s3 : string) : (s1 +:+ s2) +:+ s3 = s1 +:+ s2 +:+ s3.
Proof. unfold String.app. induction s1; simpl; congruence. Qed.

(** The string to sign, line by line. *)
Lemma string_to_sign_lines method headers expires path :
  string_to_sign method headers expires path =
  method +:+ nl +:+ slot "content-md5" headers
         +:+ nl +:+ slot "content-type" headers
         +:+ nl +:+ (if Py.truthy expires then Py.str expires
                     else slot "date" headers)
         +:+ nl +:+ path.
Proof.
  unfold string_to_sign. rewrite special_values_eq, keys_sorted_three.
  cbn [map app Py.join]. unfold lookup_total, map_lookup_total.
  simplify_map_eq. cbn [default]. by rewrite !app_assoc_str.
Qed.

Lemma header_value_None k headers :
  (∀ key value, (key, value) ∈ headers → Py.lower key ≠ k) →
  header_value k headers = None.
Proof.
  induction headers as [|[key value] rest IH]; intros Hno; [done|].
  simpl. rewrite IH.
  - rewrite decide_False; [done|]. apply (Hno key value). by left.
  - intros key' value' Hin. apply (Hno key' value'). by right.
Qed.

Lemma header_value_app k pre post :
  header_value k (pre ++ post) =
  match header_value k post with
  | Some v => Some v
  | None => header_value k pre
  end.
Proof.
  induction pre as [|[key value] pre IH]; simpl.
  - by destruct (header_value k post).
  - rewrite IH. by destruct (header_value k post).
Qed.

(** The signature depends on the headers through the three normalized
    special values only. *)
Lemma signature_ext method h1 h2 params1 params2 expires secret_key path :
  (∀ k, k ∈ special_header_keys →
        normalize <$> header_value k h1 = normalize <$> header_value k h2) →
  _get_aws_auth_param method h1 params1 expires secret_key path =
  _get_aws_auth_param method h2 params2 expires secret_key path.
Proof.
  intros Heq. unfold _get_aws_auth_param.
  rewrite !string_to_sign_lines. unfold slot.
  rewrite (Heq "content-md5"), (Heq "content-type"), (Heq "date");
    [done|apply special_key_cases; auto..].
Qed.

Lemma lower_char_not_upper c : Py.is_upper (Py.lower_char c) = false.
Proof. by destruct c as [[] [] [] [] [] [] [] []]. Qed.

Lemma no_upper_lower s : Py.no_upper (Py.lower s) = true.
Proof.
  induction s as [|c s IH]; [done|]. simpl.
  by rewrite lower_char_not_upper, IH.
Qed.

Lemma no_upper_lstrip s : Py.no_upper s = true → Py.no_upper (Py.lstrip s) = true.
Proof.
  induction s as [|c s IH]; [done|]. simpl. intros Hcs.
  destruct (Ascii.is_space c); [|done].
  apply andb_true_iff in Hcs as [_ Hs]. auto.
Qed.

Lemma no_upper_rstrip s : Py.no_upper s = true → Py.no_upper (Py.rstrip s) = true.
Proof.
  induction s as [|c s IH]; [done|]. simpl.
  intros [Hc Hs]%andb_true_iff. specialize (IH Hs).
  destruct (Py.rstrip s) as [|c' r].
  - destruct (Ascii.is_space c); [done|]. simpl. by rewrite Hc.
  - change (Py.no_upper (String c (String c' r)))
      with (negb (Py.is_upper c) && Py.no_upper (String c' r)).
    by rewrite Hc, IH.
Qed.

Lemma no_upper_normalize value : Py.no_upper (normalize value) = true.
Proof. apply no_upper_rstrip, no_upper_lstrip, no_upper_lower. Qed.

Lemma no_upper_slot k headers : Py.no_upper (slot k headers) = true.
Proof.
  unfold slot. destruct (header_value k headers); [|done].
  apply no_upper_normalize.
Qed.

Lemma app_cons_str c (s t : string) : String c s +:+ t = String c (s +:+ t).
Proof. reflexivity. Qed.

Lemma lower_app (a b : string) : Py.lower (a +:+ b) = Py.lower a +:+ Py.lower b.
Proof.
  induction a as [|c a IH]; [done|].
  rewrite app_cons_str. simpl. by rewrite IH.
Qed.

Lemma lower_all_space (l : string) : Py.all_space l = true → Py.lower l = l.
Proof.
  induction l as [|c l IH]; [done|]. simpl.
  intros [Hc Hl]%andb_true_iff. rewrite (IH Hl). f_equal.
  by destruct c as [[] [] [] [] [] [] [] []].
Qed.

Lemma lstrip_all_space (l : string) : Py.all_space l = true → Py.lstrip l = "".
Proof.
  induction l as [|c l IH]; [done|]. simpl.
  intros [Hc Hl]%andb_true_iff. rewrite Hc. auto.
Qed.

Lemma rstrip_all_space (r : string) : Py.all_space r = true → Py.rstrip r = "".
Proof.
  induction r as [|c r IH]; [done|]. simpl.
  intros [Hc Hr]%andb_true_iff. by rewrite (IH Hr), Hc.
Qed.

Lemma lstrip_app (s r : string) :
  Py.lstrip (s +:+ r) =
  if Py.all_space s then Py.lstrip r else Py.lstrip s +:+ r.
Proof.
  induction s as [|c s IH]; [done|].
  rewrite app_cons_str. simpl. by destruct (Ascii.is_space c).
Qed.

Lemma rstrip_app_space (s r : string) :
  Py.all_space r = true → Py.rstrip (s +:+ r) = Py.rstrip s.
Proof.
  intros Hr. induction s as [|c s IH].
  - by rewrite rstrip_all_space.
  - rewrite app_cons_str. simpl. by rewrite IH.
Qed.

Lemma strip_surrounding (l c r : string) :
  Py.all_space l = true → Py.all_space r = true →
  Py.strip (l +:+ c +:+ r) = Py.strip c.
Proof.
  intros Hl Hr. unfold Py.strip. rewrite lstrip_app, Hl, lstrip_app.
  destruct (Py.all_space c) eqn:Hc.
  - by rewrite !lstrip_all_space.
  - by rewrite rstrip_app_space.
Qed.

(** Values that differ only in letter case or in surrounding whitespace
    have the same lower-cased, stripped form. *)
Lemma case_and_space_variants (l1 c1 r1 l2 c2 r2 : string) :
  Py.all_space l1 = true → Py.all_space r1 = true →
  Py.all_space l2 = true → Py.all_space r2 = true →
  Py.lower c1 = Py.lower c2 →
  Py.strip (Py.lower (l1 +:+ c1 +:+ r1)) = Py.strip (Py.lower (l2 +:+ c2 +:+ r2)).
Proof.
  intros Hl1 Hr1 Hl2 Hr2 Hc. rewrite !lower_app.
  rewrite (lower_all_space l1), (lower_all_space r1),
    (lower_all_space l2), (lower_all_space r2) by done.
  rewrite !strip_surrounding by done. by rewrite Hc.
Qed.

(** C3: the string to sign is the method, the three special header lines
    in the alphabetical order of their keys (content-md5, content-type,
    date) and the path, separated by newlines; for the root path it ends
    with a newline followed by [/].  A missing content-md5 or content-type
    contributes an empty line, a supplied expiry takes the date line, and
    the signature is the base64 encoding of the HMAC-SHA1 of that string
    under the secret key. *)
Theorem string_to_sign_layout method headers params expires secret_key path :
  let md5 := slot "content-md5" headers in
  let ctype := slot "content-type" headers in
  let date := if Py.truthy expires then Py.str expires else slot "date" headers in
  string_to_sign method headers expires path =
    method +:+ nl +:+ md5 +:+ nl +:+ ctype +:+ nl +:+ date +:+ nl +:+ path ∧
  string_to_sign method headers expires "/" =
    (method +:+ nl +:+ md5 +:+ nl +:+ ctype +:+ nl +:+ date) +:+ nl +:+ "/" ∧
  ((∀ key value, (key, value) ∈ headers → Py.lower key ≠ "content-md5") →
     md5 = "") ∧
  ((∀ key value, (key, value) ∈ headers → Py.lower key ≠ "content-type") →
     ctype = "") ∧
  (Py.truthy expires = true → date = Py.str expires) ∧
  _get_aws_auth_param method headers params expires secret_key path =
    base64.b64encode
      (hmac.digest secret_key (string_to_sign method headers expires path)).
Proof.
  intros md5 ctype date. repeat split.
  - apply string_to_sign_lines.
  - rewrite string_to_sign_lines. by rewrite !app_assoc_str.
  - intros Hno. unfold md5, slot. by rewrite header_value_None.
  - intros Hno. unfold ctype, slot. by rewrite header_value_None.
  - intros Ht. unfold date. by rewrite Ht.
Qed.

(** C7: two header dicts that agree on content-md5, content-type and date,
    read case-insensitively, get the same signature; in particular a
    header outside these three can be added or removed anywhere without
    changing the signature. *)
Theorem signature_ignores_other_headers method params1 params2 expires
    secret_key path :
  (∀ h1 h2, headers_agree h1 h2 →
     _get_aws_auth_param method h1 params1 expires secret_key path =
     _get_aws_auth_param method h2 params2 expires secret_key path) ∧
  (∀ pre post key value, Py.lower key ∉ special_header_keys →
     _get_aws_auth_param method (pre ++ (key, value) :: post) params1 expires
                         secret_key path =
     _get_aws_auth_param method (pre ++ post) params2 expires secret_key path).
Proof.
  split.
  - intros h1 h2 Hagree. apply signature_ext.
    intros k Hk. by rewrite (Hagree k Hk).
  - intros pre post key value Hkey. apply signature_ext.
    intros k Hk. rewrite !header_value_app. simpl.
    destruct (header_value k post); [done|].
    rewrite decide_False; [done|]. by intros <-.
Qed.

(** C10: a special header value enters the string to sign lower-cased and
    stripped of surrounding whitespace.  Two values of a header that are
    equal up to letter case and surrounding whitespace give the same
    signature, and the header lines of the signed string hold no
    upper-case letter. *)
Theorem header_values_normalized method params expires secret_key path :
  (∀ pre post key v1 v2,
     Py.strip (Py.lower v1) = Py.strip (Py.lower v2) →
     _get_aws_auth_param method (pre ++ (key, v1) :: post) params expires
                         secret_key path =
     _get_aws_auth_param method (pre ++ (key, v2) :: post) params expires
                         secret_key path) ∧
  (∀ headers,
     string_to_sign method headers expires path =
       method +:+ nl +:+ slot "content-md5" headers
              +:+ nl +:+ slot "content-type" headers
              +:+ nl +:+ (if Py.truthy expires then Py.str expires
                          else slot "date" headers)
              +:+ nl +:+ path ∧
     ∀ k, Py.no_upper (slot k headers) = true ∧
          ∀ value, header_value k headers = Some value →
                   slot k headers = Py.strip (Py.lower value)).
Proof.
  split.
  - intros pre post key v1 v2 Hnorm. apply signature_ext.
    intros k Hk. rewrite !header_value_app. simpl.
    destruct (header_value k post); [done|].
    case_decide; [|done]. simpl. unfold normalize. by rewrite Hnorm.
  - intros headers. split; [apply string_to_sign_lines|].
    intros k. split; [apply no_upper_slot|].
    intros value Hv. unfold slot. by rewrite Hv.
Qed.

End signer.

Lemma string_to_sign_layout_witness :
  string_to_sign "GET" [("X-Foo", "bar")] (Py.VStr "1300000000") "/" =
  "GET" +:+ nl +:+ "" +:+ nl +:+ "" +:+ nl +:+ "1300000000" +:+ nl +:+ "/".
Proof.
  pose proof (string_to_sign_layout "GET" [("X-Foo", "bar")] ∅
                (Py.VStr "1300000000") "secret" "/")
    as (H & _ & Hmd5 & Htype & Hdate & _).
  rewrite H, Hmd5, Htype, Hdate.
  - reflexivity.
  - reflexivity.
  - intros key value Hin. apply list_elem_of_In in Hin.
    destruct Hin as [[= <- <-]|[]]; vm_compute; discriminate.
  - intros key value Hin. apply list_elem_of_In in Hin.
    destruct Hin as [[= <- <-]|[]]; vm_compute; discriminate.
Defined.

Lemma signature_ignores_other_headers_witness :
  _get_aws_auth_param "GET" [("X-Foo", "bar"); ("Content-Type", "text/xml")] ∅
                      (Py.VStr "1300000000") "secret" "/" =
  _get_aws_auth_param "GET" [("content-type", "text/xml")] ∅
                      (Py.VStr "1300000000") "secret" "/" ∧
  _get_aws_auth_param "GET" [("X-Foo", "bar"); ("Content-Type", "text/xml")] ∅
                      (Py.VStr "1300000000") "secret" "/" =
  _get_aws_auth_param "GET" [("Content-Type", "text/xml")] ∅
                      (Py.VStr "1300000000") "secret" "/".
Proof.
  pose proof (signature_ignores_other_headers "GET" ∅ ∅ (Py.VStr "1300000000")
                "secret" "/") as [Hagree Hother].
  split.
  - apply Hagree. intros k Hk. apply list_elem_of_In in Hk.
    destruct Hk as [<-|[<-|[<-|[]]]]; reflexivity.
  - apply (Hother [] [("Content-Type", "text/xml")] "X-Foo" "bar").
    vm_compute. intros Hin. apply list_elem_of_In in Hin.
    destruct Hin as [[=]|[[=]|[[=]|[]]]].
Defined.

Lemma header_values_normalized_witness :
  _get_aws_auth_param "PUT" [("Content-Type", "Text/XML ")] ∅
                      (Py.VStr "1300000000") "secret" "/bucket" =
  _get_aws_auth_param "PUT" [("Content-Type", "text/xml")] ∅
                      (Py.VStr "1300000000") "secret" "/bucket" ∧
  slot "content-type" [("Content-Type", "Text/XML ")] = "text/xml".
Proof.
  pose proof (header_values_normalized "PUT" ∅ (Py.VStr "1300000000")
                "secret" "/bucket") as [Hsame Hlines].
  split.
  - apply (Hsame [] [] "Content-Type" "Text/XML " "text/xml"). reflexivity.
  - destruct (Hlines [("Content-Type", "Text/XML ")]) as [_ Hslot].
    destruct (Hslot "content-type") as [_ Hvalue].
    rewrite (Hvalue "Text/XML "); reflexivity.
Defined.

(** * The authenticated request builder *)

Section builder.

Implicit Types (self : Connection) (w : World) (d : gmap string string).

Lemma alter_Some {A} (f : A → A) (h : gmap nat A) (l : nat) (x : A) :
  h !! l = Some x → alter f l h = <[l := f x]> h.
Proof.
  intros Hl. apply map_eq; intros l'.
  destruct (decide (l = l')) as [<-|Hne].
  - by rewrite lookup_alter_eq, lookup_insert_eq, Hl.
  - by rewrite lookup_alter_ne, lookup_insert_ne.
Qed.

(** One invocation, step by step: the clock is read once and the three
    assignments land in the dict object the caller passed. *)
Lemma add_default_params_run self params w d :
  heap w !! params = Some d →
  add_default_params self params w =
  (params,
   {| heap := <[params := <["Expires" := expires_at w]>
                            (<["AWSAccessKeyId" := user_id self]>
                               (<["Signature" := signature_at self w d]> d))]>
                (heap w);
      clock := clock w; tick := S (tick w) |}).
Proof.
  intros Hd. unfold add_default_params, time_time, setitem. cbn [heap clock tick].
  rewrite (lookup_total_correct _ _ _ Hd).
  rewrite (alter_Some _ _ _ _ Hd).
  rewrite (alter_Some _ _ _ _ (lookup_insert_eq _ _ _)), insert_insert_eq.
  rewrite (alter_Some _ _ _ _ (lookup_insert_eq _ _ _)), insert_insert_eq.
  reflexivity.
Qed.

Lemma auth_key_cases (k : string) :
  k ∈ auth_keys ↔ k = "Signature" ∨ k = "AWSAccessKeyId" ∨ k = "Expires".
Proof. unfold auth_keys. rewrite !elem_of_cons, elem_of_nil. tauto. Qed.

(** C2, as the code has it: [add_default_params] assigns the three
    authentication parameters into the dict object the caller passed and
    returns that same object; the caller's other entries and every other
    dict object stay as they were. *)
Theorem add_default_params_in_place self params w d :
  heap w !! params = Some d →
  (add_default_params self params w).1 = params ∧
  (∃ d', heap (add_default_params self params w).2 !! params = Some d' ∧
         d' !! "Signature" = Some (signature_at self w d) ∧
         d' !! "AWSAccessKeyId" = Some (user_id self) ∧
         d' !! "Expires" = Some (expires_at w) ∧
         ∀ k, k ∉ auth_keys → d' !! k = d !! k) ∧
  (∀ other, other ≠ params →
     heap (add_default_params self params w).2 !! other = heap w !! other).
Proof.
  intros Hd. rewrite (add_default_params_run _ _ _ _ Hd). cbn [fst snd heap].
  split; [done|]. split.
  - eexists. rewrite lookup_insert_eq. split; [done|].
    repeat split; [by simplify_map_eq..|].
    intros k Hk. rewrite auth_key_cases in Hk.
    rewrite !lookup_insert_ne; [done|intros <-; tauto..].
  - intros other Hne. by rewrite lookup_insert_ne.
Qed.

(** C8: every invocation reads the clock anew and sets [Expires] to the
    decimal numeral of that reading, in whole seconds, plus 900; the dict
    it produces holds [Signature], [AWSAccessKeyId] (the connection's
    access key) and [Expires] and, under every other key, what the caller
    supplied.  A second invocation uses the next clock reading. *)
Theorem add_default_params_expiry_and_keys self params w d :
  heap w !! params = Some d →
  let w1 := (add_default_params self params w).2 in
  let w2 := (add_default_params self params w1).2 in
  (∃ d1, heap w1 !! (add_default_params self params w).1 = Some d1 ∧
         d1 !! "Expires" =
           Some (Py.str_int (Py.int_of_float (clock w (tick w)) + 900)) ∧
         d1 !! "AWSAccessKeyId" = Some (user_id self) ∧
         d1 !! "Signature" =
           Some (_get_aws_auth_param
                   (method self) (add_default_headers self []) d
                   (Py.VStr (Py.str_int (Py.int_of_float (clock w (tick w)) + 900)))
                   (key self) (action self)) ∧
         (∀ k, k ∉ auth_keys → d1 !! k = d !! k) ∧
         dom d1 = dom d ∪ list_to_set auth_keys) ∧
  (∃ d2, heap w2 !! params = Some d2 ∧
         d2 !! "Expires" =
           Some (Py.str_int (Py.int_of_float (clock w (S (tick w))) + 900))).
Proof.
  intros Hd w1 w2. unfold w2, w1.
  rewrite (add_default_params_run _ _ _ _ Hd). cbn [fst snd].
  split.
  - eexists. cbn [heap]. rewrite lookup_insert_eq. split; [done|].
    repeat split; [by simplify_map_eq..| |].
    + intros k Hk. rewrite auth_key_cases in Hk.
      rewrite !lookup_insert_ne; [done|intros <-; tauto..].
    + rewrite !dom_insert_L. unfold auth_keys. cbn [list_to_set]. set_solver.
  - erewrite add_default_params_run by (cbn [heap]; apply lookup_insert_eq).
    eexists. cbn [snd heap]. rewrite lookup_insert_eq. split; [done|].
    by simplify_map_eq.
Qed.

End builder.

(** C2, as the claim has it, fails: the dict object the caller passed holds
    the three authentication parameters after the call. *)
Lemma add_default_params_mutates_caller :
  ¬ (∀ (self : Connection) (params : nat) (w : World),
       heap (add_default_params self params w).2 !! params = heap w !! params).
Proof.
  intros Hsame.
  set (self := {| user_id := "AKID"; key := "secret"; method := "GET";
                  action := "/"; add_default_headers := λ h, h |}).
  set (w := {| heap := {[ 0%nat := ({[ "prefix" := "a" ]} : gmap string string) ]};
               clock := λ _, (1300000000 # 1)%Q; tick := 0 |}).
  specialize (Hsame self 0%nat w).
  rewrite (add_default_params_run self 0%nat w {[ "prefix" := "a" ]}) in Hsame
    by reflexivity.
  cbn [snd heap] in Hsame. rewrite lookup_insert_eq in Hsame.
  unfold w in Hsame at 3. cbn [heap] in Hsame.
  rewrite lookup_singleton_eq in Hsame.
  apply (inj Some) in Hsame.
  apply (f_equal (λ d : gmap string string, d !! "Expires")) in Hsame.
  rewrite lookup_insert_eq, lookup_singleton_ne in Hsame; done.
Qed.

Lemma add_default_params_in_place_witness :
  let self := {| user_id := "AKID"; key := "secret"; method := "GET";
                 action := "/"; add_default_headers := λ h, h |} in
  let w := {| heap := {[ 0%nat := ({[ "prefix" := "a" ]} : gmap string string) ]};
              clock := λ _, (1300000000 # 1)%Q; tick := 0 |} in
  (add_default_params self 0%nat w).1 = 0%nat ∧
  ∃ d', heap (add_default_params self 0%nat w).2 !! 0%nat = Some d' ∧
        d' !! "Expires" = Some "1300000900" ∧
        d' !! "prefix" = Some "a".
Proof.
  intros self w.
  destruct (add_default_params_in_place self 0%nat w {[ "prefix" := "a" ]} eq_refl)
    as (Hret & (d' & Hd' & _ & _ & Hexp & Hrest) & _).
  split; [exact Hret|]. exists d'. split; [exact Hd'|]. split.
  - rewrite Hexp. reflexivity.
  - rewrite Hrest; [reflexivity|].
    intros Hin. apply list_elem_of_In in Hin.
    destruct Hin as [[=]|[[=]|[[=]|[]]]].
Defined.

Lemma add_default_params_expiry_and_keys_witness :
  let self := {| user_id := "AKID"; key := "secret"; method := "GET";
                 action := "/"; add_default_headers := λ h, h |} in
  let w := {| heap := {[ 0%nat := ({[ "prefix" := "a" ]} : gmap string string) ]};
              clock := λ n, Qmake (2600000001 + 2 * Z.of_nat n) 2; tick := 0 |} in
  ∃ d1 d2,
    heap (add_default_params self 0%nat w).2 !! 0%nat = Some d1 ∧
    d1 !! "Expires" = Some "1300000900" ∧
    heap (add_default_params self 0%nat (add_default_params self 0%nat w).2).2
      !! 0%nat = Some d2 ∧
    d2 !! "Expires" = Some "1300000901".
Proof.
  intros self w.
  destruct (add_default_params_expiry_and_keys self 0%nat w {[ "prefix" := "a" ]}
              eq_refl)
    as ((d1 & Hd1 & Hexp1 & _) & (d2 & Hd2 & Hexp2)).
  exists d1, d2. repeat split; [exact Hd1| |exact Hd2|].
  - rewrite Hexp1. reflexivity.
  - rewrite Hexp2. reflexivity.
Defined.

(** * The entity mapper *)

Section mapper.

Import ElementTree.

Lemma filter_tag_nil (tg : string) (l : list Element) :
  Forall (λ e, tag e ≠ tg) l → filter (λ c, tag c = tg) l = [].
Proof.
  induction 1 as [|e l He _ IH]; [done|].
  by rewrite filter_cons_False.
Qed.

(** The path [Buckets/Bucket] selects the bucket entries of the document,
    in document order. *)
Lemma findall_buckets before buckets after :
  Forall (λ e, tag e ≠ qualified "Buckets") before →
  Forall (λ e, tag e ≠ qualified "Buckets") after →
  Forall (λ e, tag e = qualified "Bucket") buckets →
  findall (ListAllMyBucketsResult before buckets after)
          (fixxpath "Buckets/Bucket" NAMESPACE) = buckets.
Proof.
  intros Hbefore Hafter Hbuckets.
  change (fixxpath "Buckets/Bucket" NAMESPACE)
    with [qualified "Buckets"; qualified "Bucket"].
  unfold findall, ListAllMyBucketsResult. cbn [fold_left].
  unfold select_child at 2. cbn [mbind list_bind children app].
  rewrite app_nil_r, filter_app, filter_cons_True by done.
  rewrite !filter_tag_nil by done. cbn [app].
  unfold select_child. cbn [mbind list_bind children app].
  rewrite app_nil_r. clear -Hbuckets.
  induction Hbuckets as [|b l Hb _ IH]; [done|].
  by rewrite filter_cons_True, IH.
Qed.

Lemma to_container_Bucket self bname creation_date :
  _to_container self (Bucket bname creation_date) =
  {| container_name := Some bname;
     container_extra := Some {[ "creation_date" := Some creation_date ]};
     container_driver := self |}.
Proof. reflexivity. Qed.

(** C9: from a list-containers document with exactly two bucket entries
    the mapper produces exactly two containers, in document order, with
    the names and creation dates of the entries' text fields; every
    container the mapper produces refers to the driver that produced it,
    and every object moreover to the container the caller supplied. *)
Theorem to_containers_two_buckets self before after name1 date1 name2 date2 :
  Forall (λ e, tag e ≠ qualified "Buckets") before →
  Forall (λ e, tag e ≠ qualified "Buckets") after →
  _to_containers self
    (ListAllMyBucketsResult before [Bucket name1 date1; Bucket name2 date2] after)
    "Buckets/Bucket" =
    [ {| container_name := Some name1;
         container_extra := Some {[ "creation_date" := Some date1 ]};
         container_driver := self |};
      {| container_name := Some name2;
         container_extra := Some {[ "creation_date" := Some date2 ]};
         container_driver := self |} ] ∧
  (∀ obj xpath c, c ∈ _to_containers self obj xpath → container_driver c = self) ∧
  (∀ obj xpath container o,
     o ∈ _to_objs self obj xpath container →
     object_driver o = self ∧ object_container o = container).
Proof.
  intros Hbefore Hafter. split; [|split].
  - unfold _to_containers. rewrite findall_buckets; [done..|].
    by repeat constructor.
  - intros obj xpath c. unfold _to_containers.
    rewrite list_elem_of_fmap. by intros (e & -> & _).
  - intros obj xpath container o. unfold _to_objs.
    rewrite list_elem_of_fmap. by intros (e & -> & _).
Qed.

End mapper.

Lemma to_containers_two_buckets_witness :
  let self := S3StorageDriver "id" "secret" in
  let owner := ElementTree.Elem (qualified "Owner") None
                 [text_field "ID" "af3c"; text_field "DisplayName" "alice"] None in
  let photos := {| container_name := Some "photos";
                   container_extra :=
                     Some {[ "creation_date" := Some "2011-01-01T00:00:00.000Z" ]};
                   container_driver := self |} in
  let backup := {| container_name := Some "backup";
                   container_extra :=
                     Some {[ "creation_date" := Some "2011-02-03T04:05:06.000Z" ]};
                   container_driver := self |} in
  let buckets := ListAllMyBucketsResult [owner]
                   [Bucket "photos" "2011-01-01T00:00:00.000Z";
                    Bucket "backup" "2011-02-03T04:05:06.000Z"] [] in
  let listing := ListBucketResult [Contents "a.txt" "3" "900150983cd2" "af3c" "alice"] in
  _to_containers self buckets "Buckets/Bucket" = [photos; backup] ∧
  Forall (λ c, container_driver c = self)
         (_to_containers self buckets "Buckets/Bucket") ∧
  Forall (λ o, object_driver o = self ∧ object_container o = photos)
         (_to_objs self listing "Contents" photos).
Proof.
  intros self owner photos backup buckets listing.
  assert (Hbefore : Forall (λ e, ElementTree.tag e ≠ qualified "Buckets") [owner])
    by (constructor; [vm_compute; discriminate|constructor]).
  destruct (to_containers_two_buckets self [owner] []
              "photos" "2011-01-01T00:00:00.000Z"
              "backup" "2011-02-03T04:05:06.000Z" Hbefore (Forall_nil_2 _))
    as (Htwo & Hdriver & Hobject).
  split; [exact Htwo|]. split.
  - apply Forall_forall. intros c Hc.
    exact (Hdriver buckets "Buckets/Bucket" c Hc).
  - apply Forall_forall. intros o Ho.
    exact (Hobject listing "Contents" photos o Ho).
Defined.

(** * Listing operations and the remaining outcomes *)

Section listing.

Variable connection : Request → Result Response.

(** X1: [list_containers] issues one request, a GET of the root path with
    no body.  A 200 response returns the containers mapped from its
    document; every other status, including the 404 and 409 that the
    response class lets through, raises the unexpected-status error, which
    names the status and the driver. *)
Theorem list_containers_status_table (self : StorageDriver) (log : list Request)
    (response : Response) :
  let r := {| req_action := "/"; req_data := None; req_method := "GET" |} in
  connection r = Return response →
  (list_containers connection self log).2 = log ++ [r] ∧
  (status response = 200 →
     (list_containers connection self log).1 =
     Return (_to_containers self (object response) "Buckets/Bucket")) ∧
  (status response ≠ 200 →
     (list_containers connection self log).1 =
     Raise (LibcloudError ("Unexpected status code: " +:+ Py.str_int (status response))
                          (Some (driver_object self)))).
Proof.
  intros r Hc. unfold list_containers. split.
  { apply request_then_log. intros resp l. by case_match. }
  rewrite (request_then_result _ _ _ _ _ _ _ Hc). unfold httplib.OK.
  split.
  - intros ->. reflexivity.
  - intros Hne. by destruct (Z.eqb_spec (status response) 200).
Qed.

(** X2: [list_container_objects] issues one request, a GET of the
    container's path [/name].  A 200 response returns the objects mapped
    from its document, each bound to the container passed in; every other
    status raises the unexpected-status error. *)
Theorem list_container_objects_status_table (self : StorageDriver)
    (container : Container) (log : list Request) (response : Response) :
  let r := {| req_action := "/" +:+ Py.fmt_s (container_name container);
              req_data := None; req_method := "GET" |} in
  connection r = Return response →
  (list_container_objects connection self container log).2 = log ++ [r] ∧
  (status response = 200 →
     (list_container_objects connection self container log).1 =
     Return (_to_objs self (object response) "Contents" container)) ∧
  (status response ≠ 200 →
     (list_container_objects connection self container log).1 =
     Raise (LibcloudError ("Unexpected status code: " +:+ Py.str_int (status response))
                          (Some (driver_object self)))).
Proof.
  intros r Hc. unfold list_container_objects. split.
  { apply request_then_log. intros resp l. by case_match. }
  rewrite (request_then_result _ _ _ _ _ _ _ Hc). unfold httplib.OK.
  split.
  - intros ->. reflexivity.
  - intros Hne. by destruct (Z.eqb_spec (status response) 200).
Qed.

(** X3: [create_container] returns a container for a 200 response only:
    a status other than 200 and 409 raises the unexpected-status error
    naming the status and the driver, and whenever a container is returned
    the status was 200 and the container carries the requested name, no
    extra data and the driver. *)
Theorem create_container_other_statuses (self : StorageDriver) (cname : string)
    (log : list Request) (response : Response) :
  connection {| req_action := "/" +:+ cname;
                req_data := Some (create_container_body self);
                req_method := "PUT" |} = Return response →
  (status response ≠ 200 → status response ≠ 409 →
     (create_container connection self cname log).1 =
     Raise (LibcloudError ("Unexpected status code: " +:+ Py.str_int (status response))
                          (Some (driver_object self)))) ∧
  (∀ container,
     (create_container connection self cname log).1 = Return container →
     status response = 200 ∧
     container = {| container_name := Some cname; container_extra := None;
                    container_driver := self |}).
Proof.
  intros Hc. unfold create_container.
  rewrite (request_then_result _ _ _ _ _ _ _ Hc).
  unfold httplib.OK, httplib.CONFLICT. split.
  - intros H200 H409.
    destruct (Z.eqb_spec (status response) 200); [done|].
    by destruct (Z.eqb_spec (status response) 409).
  - intros container.
    destruct (Z.eqb_spec (status response) 200) as [H200|_].
    + by intros [= <-].
    + by destruct (Z.eqb_spec (status response) 409).
Qed.

(** X4: an exception raised by the connection (the credential and region
    errors of the response class among them) propagates unchanged out of
    each of the four operations, after the one request has been issued. *)
Theorem connection_errors_propagate (self : StorageDriver) (container : Container)
    (cname : string) (log : list Request) (e : Exception) :
  (∀ r, connection r = Raise e) →
  (list_containers connection self log).1 = Raise e ∧
  (list_container_objects connection self container log).1 = Raise e ∧
  (create_container connection self cname log).1 = Raise e ∧
  (delete_container connection self container log).1 = Raise e ∧
  length (list_containers connection self log).2 = S (length log) ∧
  length (list_container_objects connection self container log).2 = S (length log) ∧
  length (create_container connection self cname log).2 = S (length log) ∧
  length (delete_container connection self container log).2 = S (length log).
Proof.
  intros Hraise.
  unfold list_containers, list_container_objects, create_container,
    delete_container, mbind, Op_bind, connection_request.
  rewrite !Hraise. cbn [fst snd]. rewrite !length_app. cbn [length].
  repeat split; lia.
Qed.

(** X5: the container that [create_container] returns is addressed by
    later operations at the path it was created at: [delete_container]
    sends its DELETE and [list_container_objects] its GET to [/name]. *)
Theorem created_container_round_trip (self : StorageDriver) (cname : string)
    (log : list Request) (container : Container) :
  (create_container connection self cname log).1 = Return container →
  (∃ data, (create_container connection self cname log).2 =
           log ++ [{| req_action := "/" +:+ cname; req_data := data;
                      req_method := "PUT" |}]) ∧
  ∀ (later : Request → Result Response) (log' : list Request),
    (delete_container later self container log').2 =
      log' ++ [{| req_action := "/" +:+ cname; req_data := None;
                  req_method := "DELETE" |}] ∧
    (list_container_objects later self container log').2 =
      log' ++ [{| req_action := "/" +:+ cname; req_data := None;
                  req_method := "GET" |}].
Proof.
  intros Hret.
  assert (Hlog : (create_container connection self cname log).2 =
                 log ++ [{| req_action := "/" +:+ cname;
                            req_data := Some (create_container_body self);
                            req_method := "PUT" |}]).
  { unfold create_container. apply request_then_log.
    intros resp l. by repeat case_match. }
  destruct (connection {| req_action := "/" +:+ cname;
                          req_data := Some (create_container_body self);
                          req_method := "PUT" |}) as [response|e] eqn:Hc.
  - assert (container = {| container_name := Some cname; container_extra := None;
                           container_driver := self |}) as ->.
    { unfold create_container in Hret.
      rewrite (request_then_result _ _ _ _ _ _ _ Hc) in Hret.
      destruct (status response =? httplib.OK); [by injection Hret|].
      by destruct (status response =? httplib.CONFLICT). }
    split; [eauto|].
    intros later log'. split.
    + unfold delete_container. apply request_then_log.
      intros resp l. by repeat case_match.
    + unfold list_container_objects. apply request_then_log.
      intros resp l. by case_match.
  - unfold create_container, mbind, Op_bind, connection_request in Hret.
    by rewrite Hc in Hret.
Qed.

End listing.

(** * The entity mapper on arbitrary documents *)

Section documents.

Lemma select_child_one (tg : string) (e : ElementTree.Element) :
  ElementTree.select_child tg [e] = filter (λ c, ElementTree.tag c = tg) (ElementTree.children e).
Proof. unfold ElementTree.select_child. cbn [mbind list_bind]. apply app_nil_r. Qed.

Lemma findtext_missing (element : ElementTree.Element) (tg : string) :
  Forall (λ c, ElementTree.tag c ≠ tg) (ElementTree.children element) →
  ElementTree.findtext element [tg] = None.
Proof.
  intros Hno. unfold ElementTree.findtext, ElementTree.findall. cbn [fold_left].
  by rewrite select_child_one, filter_tag_nil.
Qed.

Lemma findtext_first (element : ElementTree.Element) (tg : string) pre txt cs tl post :
  ElementTree.children element = pre ++ ElementTree.Elem tg txt cs tl :: post →
  Forall (λ c, ElementTree.tag c ≠ tg) pre →
  ElementTree.findtext element [tg] = Some (default "" txt).
Proof.
  intros Hch Hpre. unfold ElementTree.findtext, ElementTree.findall. cbn [fold_left].
  rewrite select_child_one, Hch, filter_app, filter_tag_nil by done.
  by rewrite filter_cons_True.
Qed.

Lemma findtext_nested_missing (element : ElementTree.Element) (outer inner : string) :
  Forall (λ c, ElementTree.tag c ≠ outer) (ElementTree.children element) →
  ElementTree.findtext element [outer; inner] = None.
Proof.
  intros Hno. unfold ElementTree.findtext, ElementTree.findall. cbn [fold_left].
  by rewrite select_child_one, filter_tag_nil.
Qed.

(** X6: a list-containers document with any number of bucket entries maps
    to one container per entry, in document order, with the entry's name
    and creation date; siblings of [Buckets] that carry another tag are
    ignored, and an empty [Buckets] element gives the empty list. *)
Theorem to_containers_every_entry self before after (entries : list (string * string)) :
  Forall (λ e, ElementTree.tag e ≠ qualified "Buckets") before →
  Forall (λ e, ElementTree.tag e ≠ qualified "Buckets") after →
  _to_containers self
    (ListAllMyBucketsResult before (map (λ e, Bucket e.1 e.2) entries) after)
    "Buckets/Bucket" =
  map (λ e, {| container_name := Some e.1;
               container_extra := Some {[ "creation_date" := Some e.2 ]};
               container_driver := self |}) entries.
Proof.
  intros Hbefore Hafter. unfold _to_containers.
  rewrite findall_buckets; [|done..|].
  - rewrite map_map. apply map_ext. by intros [bname date].
  - apply Forall_forall. intros b Hb. apply list_elem_of_fmap in Hb.
    by destruct Hb as ([bname date] & -> & _).
Qed.

(** X7: the mapper reads a field from the first child that carries the
    field's qualified tag, wherever it stands among the entry's children:
    the container name is that child's text, the empty string when the
    child has no text, and [None] when the entry has no [Name] child; the
    entry is mapped in every case. *)
Theorem to_container_name_lookup self (element : ElementTree.Element) :
  (Forall (λ c, ElementTree.tag c ≠ qualified "Name") (ElementTree.children element) →
     container_name (_to_container self element) = None) ∧
  (∀ pre txt cs tl post,
     ElementTree.children element = pre ++ ElementTree.Elem (qualified "Name") txt cs tl :: post →
     Forall (λ c, ElementTree.tag c ≠ qualified "Name") pre →
     container_name (_to_container self element) = Some (default "" txt)).
Proof.
  split.
  - intros Hno. by apply (findtext_missing element (qualified "Name")).
  - intros pre txt cs tl post Hch Hpre.
    by apply (findtext_first element (qualified "Name") pre txt cs tl post).
Qed.

(** X8: a document in which no child of the root carries the qualified tag
    the path starts with (an error document, a document in another or in
    no namespace) maps to the empty list, for containers and for objects;
    nothing is raised. *)
Theorem no_matching_nodes self (obj : ElementTree.Element) (container : Container) :
  (Forall (λ c, ElementTree.tag c ≠ qualified "Buckets") (ElementTree.children obj) →
     _to_containers self obj "Buckets/Bucket" = []) ∧
  (Forall (λ c, ElementTree.tag c ≠ qualified "Contents") (ElementTree.children obj) →
     _to_objs self obj "Contents" container = []).
Proof.
  split; intros Hno.
  - unfold _to_containers.
    change (fixxpath "Buckets/Bucket" NAMESPACE)
      with [qualified "Buckets"; qualified "Bucket"].
    unfold ElementTree.findall. cbn [fold_left].
    by rewrite select_child_one, filter_tag_nil.
  - unfold _to_objs.
    change (fixxpath "Contents" NAMESPACE) with [qualified "Contents"].
    unfold ElementTree.findall. cbn [fold_left].
    by rewrite select_child_one, filter_tag_nil.
Qed.

(** X9: a list-objects document maps to one object per [Contents] child of
    the root, in document order: key, size and ETag from the entry's
    fields, the owner's id and display name from its nested [Owner]
    element, no extra data, and the container and driver supplied;
    children of the root with another tag are ignored. *)
Theorem to_objs_every_entry self tg txt tl before after container
    (entries : list (string * string * string * (string * string))) :
  Forall (λ e, ElementTree.tag e ≠ qualified "Contents") before →
  Forall (λ e, ElementTree.tag e ≠ qualified "Contents") after →
  _to_objs self
    (ElementTree.Elem tg txt
       (before ++ map (λ e, Contents e.1.1.1 e.1.1.2 e.1.2 e.2.1 e.2.2) entries ++ after)
       tl)
    "Contents" container =
  map (λ e, {| object_name := Some e.1.1.1; object_size := Some e.1.1.2;
               object_hash := Some e.1.2; object_extra := None;
               object_meta_data :=
                 {[ "owner" := <["display_name" := Some e.2.2]>
                                 {[ "id" := Some e.2.1 ]} ]};
               object_container := container; object_driver := self |}) entries.
Proof.
  intros Hbefore Hafter. unfold _to_objs.
  change (fixxpath "Contents" NAMESPACE) with [qualified "Contents"].
  unfold ElementTree.findall. cbn [fold_left]. rewrite select_child_one. cbn [ElementTree.children].
  rewrite !filter_app.
  rewrite (filter_tag_nil _ before), (filter_tag_nil _ after) by done.
  rewrite app_nil_r. cbn [app].
  induction entries as [|[[[okey size] etag] [oid oname]] entries IH]; [done|].
  cbn [map]. rewrite filter_cons_True by done. cbn [map]. by rewrite IH.
Qed.

(** X10: an object entry without an [Owner] child is still mapped; its
    owner metadata holds [None] for the id and for the display name. *)
Theorem to_obj_without_owner self (element : ElementTree.Element) (container : Container) :
  Forall (λ c, ElementTree.tag c ≠ qualified "Owner") (ElementTree.children element) →
  object_meta_data (_to_obj self element container) =
    {[ "owner" := <["display_name" := None]> {[ "id" := None ]} ]} ∧
  object_container (_to_obj self element container) = container ∧
  object_driver (_to_obj self element container) = self.
Proof.
  intros Hno. split; [|done]. unfold _to_obj. cbn [object_meta_data].
  unfold findtext.
  change (fixxpath "Owner/ID" NAMESPACE) with [qualified "Owner"; qualified "ID"].
  change (fixxpath "Owner/DisplayName" NAMESPACE)
    with [qualified "Owner"; qualified "DisplayName"].
  by rewrite !findtext_nested_missing.
Qed.

(** X11: a container mapped from an entry without a [Name] child has the
    name [None], and the operations on it address the path [/None]. *)
Theorem unnamed_container_path self (element : ElementTree.Element)
    (connection : Request → Result Response) (log : list Request) :
  Forall (λ c, ElementTree.tag c ≠ qualified "Name") (ElementTree.children element) →
  (delete_container connection self (_to_container self element) log).2 =
    log ++ [{| req_action := "/None"; req_data := None; req_method := "DELETE" |}] ∧
  (list_container_objects connection self (_to_container self element) log).2 =
    log ++ [{| req_action := "/None"; req_data := None; req_method := "GET" |}].
Proof.
  intros Hno.
  assert (Hname : container_name (_to_container self element) = None)
    by apply (findtext_missing element (qualified "Name") Hno).
  split.
  - unfold delete_container. rewrite Hname. apply request_then_log.
    intros resp l. by repeat case_match.
  - unfold list_container_objects. rewrite Hname. apply request_then_log.
    intros resp l. by case_match.
Qed.

End documents.

(** * Further properties of the signer *)

Section signer_edges.

Implicit Types (headers pre post : list (string * string)).

Lemma length_app_str (a b : string) :
  String.length (a +:+ b) = (String.length a + String.length b)%nat.
Proof.
  induction a as [|c a IH]; [done|].
  rewrite app_cons_str. simpl. by rewrite IH.
Qed.

Lemma app_inv_tail_str (a b t : string) : a +:+ t = b +:+ t → a = b.
Proof.
  revert b. induction a as [|c a IH]; intros [|c' b] Heq.
  - done.
  - apply (f_equal String.length) in Heq.
    rewrite !length_app_str in Heq. simpl in Heq. lia.
  - apply (f_equal String.length) in Heq.
    rewrite !length_app_str in Heq. simpl in Heq. lia.
  - rewrite !app_cons_str in Heq. injection Heq as -> Heq.
    by rewrite (IH b Heq).
Qed.

Lemma header_value_is_Some k headers key value :
  (key, value) ∈ headers → Py.lower key = k → is_Some (header_value k headers).
Proof.
  intros Hin Hk. induction headers as [|[key' value'] rest IH]; [by inversion Hin|].
  simpl. destruct (header_value k rest) eqn:Hrest; [eauto|].
  apply elem_of_cons in Hin as [[= <- <-]|Hin].
  - rewrite decide_True by done. eauto.
  - by destruct (IH Hin).
Qed.

(** With an expiry the signature depends on content-md5 and content-type
    only. *)
Lemma signature_ext_expiry method h1 h2 params1 params2 expires secret_key path :
  Py.truthy expires = true →
  slot "content-md5" h1 = slot "content-md5" h2 →
  slot "content-type" h1 = slot "content-type" h2 →
  _get_aws_auth_param method h1 params1 expires secret_key path =
  _get_aws_auth_param method h2 params2 expires secret_key path.
Proof.
  intros Ht Hmd5 Htype. unfold _get_aws_auth_param.
  by rewrite !string_to_sign_lines, Ht, Hmd5, Htype.
Qed.

(** X12: when an expiry is supplied, a Date header has no influence on the
    signature: it can be added, removed or changed, in any spelling of its
    key, without changing the result. *)
Theorem expiry_overrides_date_header method params expires secret_key path
    pre post key value :
  Py.truthy expires = true →
  Py.lower key = "date" →
  _get_aws_auth_param method (pre ++ (key, value) :: post) params expires
                      secret_key path =
  _get_aws_auth_param method (pre ++ post) params expires secret_key path.
Proof.
  intros Ht Hkey. apply signature_ext_expiry; [done|..];
    unfold slot; rewrite !header_value_app; simpl; rewrite Hkey;
    by destruct (header_value _ post).
Qed.

(** X13: an expiry of [None], of the empty string or of [0] counts as no
    expiry: the date line of the string to sign is then the normalized
    value of the Date header, and empty when there is no such header. *)
Theorem falsy_expiry_signs_date_header method headers expires path :
  expires = Py.VNone ∨ expires = Py.VStr "" ∨ expires = Py.VInt 0 →
  string_to_sign method headers expires path =
    method +:+ nl +:+ slot "content-md5" headers
           +:+ nl +:+ slot "content-type" headers
           +:+ nl +:+ slot "date" headers +:+ nl +:+ path ∧
  ((∀ key value, (key, value) ∈ headers → Py.lower key ≠ "date") →
     slot "date" headers = "") ∧
  (∀ key value, Py.lower key = "date" →
     string_to_sign method (headers ++ [(key, value)]) expires path =
       method +:+ nl +:+ slot "content-md5" headers
              +:+ nl +:+ slot "content-type" headers
              +:+ nl +:+ Py.strip (Py.lower value) +:+ nl +:+ path).
Proof.
  intros Hfalsy.
  assert (Ht : Py.truthy expires = false) by (by destruct Hfalsy as [->|[->| ->]]).
  split; [|split].
  - by rewrite string_to_sign_lines, Ht.
  - intros Hno. unfold slot. by rewrite header_value_None.
  - intros key value Hkey. rewrite string_to_sign_lines, Ht.
    unfold slot. rewrite !header_value_app. simpl.
    by rewrite Hkey, !decide_False, decide_True by done.
Qed.

(** X14: when a special header occurs more than once, in whatever
    spellings of its key, the occurrence the dict iterates last is the one
    signed: an earlier occurrence can be dropped without changing the
    signature. *)
Theorem later_spelling_wins method params expires secret_key path
    pre post key value key' value' :
  (key', value') ∈ post → Py.lower key' = Py.lower key →
  _get_aws_auth_param method (pre ++ (key, value) :: post) params expires
                      secret_key path =
  _get_aws_auth_param method (pre ++ post) params expires secret_key path.
Proof.
  intros Hin Hkey. apply signature_ext. intros k Hk.
  rewrite !header_value_app. simpl.
  destruct (header_value k post) eqn:Hpost; [done|].
  case_decide as Heq; [|done].
  destruct (header_value_is_Some k post key' value' Hin) as [v Hv]; [congruence|].
  congruence.
Qed.

(** X15: for fixed headers and expiry the string to sign determines the
    path, given the method, and the method, given the path: two requests
    that differ in one of them are never signed over the same string. *)
Theorem string_to_sign_binds_method_and_path headers expires
    method1 method2 path1 path2 :
  (string_to_sign method1 headers expires path1 =
   string_to_sign method1 headers expires path2 → path1 = path2) ∧
  (string_to_sign method1 headers expires path1 =
   string_to_sign method2 headers expires path1 → method1 = method2).
Proof.
  rewrite !string_to_sign_lines. split.
  - intros Heq. by repeat apply (inj (String.app _)) in Heq.
  - apply app_inv_tail_str.
Qed.

Lemma rstrip_idemp (s : string) : Py.rstrip (Py.rstrip s) = Py.rstrip s.
Proof.
  induction s as [|c s IH]; [done|]. simpl.
  destruct (Py.rstrip s) as [|c' r] eqn:Hr.
  - destruct (Ascii.is_space c) eqn:Hc; [done|]. simpl. by rewrite Hc.
  - change (Py.rstrip (String c (String c' r)))
      with (match Py.rstrip (String c' r) with
            | EmptyString => if Ascii.is_space c then "" else String c ""
            | r' => String c r'
            end).
    by rewrite IH.
Qed.

Lemma lstrip_fixed (s : string) :
  match s with
  | EmptyString => True
  | String c _ => Ascii.is_space c = false
  end → Py.lstrip s = s.
Proof. destruct s as [|c s]; [done|]. simpl. by intros ->. Qed.

Lemma lstrip_head (s : string) :
  match Py.lstrip s with
  | EmptyString => True
  | String c _ => Ascii.is_space c = false
  end.
Proof.
  induction s as [|c s IH]; [done|]. simpl.
  by destruct (Ascii.is_space c) eqn:Hc.
Qed.

Lemma rstrip_head (s : string) :
  match s with
  | EmptyString => True
  | String c _ => Ascii.is_space c = false
  end →
  match Py.rstrip s with
  | EmptyString => True
  | String c _ => Ascii.is_space c = false
  end.
Proof.
  destruct s as [|c s]; [done|]. simpl. intros Hc.
  destruct (Py.rstrip s); by rewrite ?Hc.
Qed.

Lemma strip_idemp (s : string) : Py.strip (Py.strip s) = Py.strip s.
Proof.
  unfold Py.strip.
  rewrite (lstrip_fixed (Py.rstrip (Py.lstrip s))).
  - apply rstrip_idemp.
  - apply rstrip_head, lstrip_head.
Qed.

Lemma lower_no_upper_fixed (s : string) : Py.no_upper s = true → Py.lower s = s.
Proof.
  induction s as [|c s IH]; [done|]. simpl.
  intros [Hc Hs]%andb_true_iff. rewrite (IH Hs). unfold Py.lower_char.
  by destruct (Py.is_upper c).
Qed.

Lemma normalize_idemp (value : string) : normalize (normalize value) = normalize value.
Proof.
  unfold normalize at 1.
  rewrite (lower_no_upper_fixed _ (no_upper_normalize value)).
  apply strip_idemp.
Qed.

(** X16: lower-casing and stripping is idempotent, so a header value may be
    replaced by its lower-cased, stripped form without changing the
    signature: what the server must reproduce is the normalized value. *)
Theorem normalized_value_signs_alike method params expires secret_key path
    pre post key value :
  Py.strip (Py.lower (Py.strip (Py.lower value))) = Py.strip (Py.lower value) ∧
  _get_aws_auth_param method (pre ++ (key, value) :: post) params expires
                      secret_key path =
  _get_aws_auth_param method (pre ++ (key, Py.strip (Py.lower value)) :: post)
                      params expires secret_key path.
Proof.
  split; [apply normalize_idemp|].
  apply signature_ext. intros k Hk. rewrite !header_value_app. simpl.
  destruct (header_value k post); [done|].
  case_decide; [|done]. simpl. f_equal. symmetry. apply normalize_idemp.
Qed.

End signer_edges.

(** * Further properties of the request builder and of the request body *)

Section builder_edges.

Implicit Types (self : Connection) (w : World) (d : gmap string string).

Lemma pretty_N_go_nonempty (x : N) (s : string) : s ≠ "" → pretty_N_go x s ≠ "".
Proof.
  revert s. induction (N.lt_wf_0 x) as [x _ IH]; intros s Hs.
  assert (x = 0 ∨ 0 < x)%N as [->|Hpos] by lia.
  - by rewrite pretty_N_go_0.
  - rewrite pretty_N_go_step by done. apply IH; [by apply N.div_lt|done].
Qed.

(** A decimal numeral is never the empty string: [str(i)] is truthy. *)
Lemma str_int_nonempty (i : Z) : Py.truthy (Py.VStr (Py.str_int i)) = true.
Proof.
  assert (Hne : Py.str_int i ≠ "").
  { unfold Py.str_int, pretty, pretty_Z. destruct i as [|p|p]; [done|..].
    - unfold pretty, pretty_positive, pretty, pretty_N.
      case_decide; [done|]. rewrite pretty_N_go_step by lia.
      by apply pretty_N_go_nonempty.
    - done. }
  simpl. destruct (String.eqb_spec (Py.str_int i) ""); [done|reflexivity].
Qed.

(** X17: the string that [add_default_params] signs always carries the
    expiry in its date line, whatever the default headers say about Date:
    method, the default content-md5 and content-type, the expiry and the
    path; and the expiry signed is the one stored under [Expires]. *)
Theorem add_default_params_signs_expiry self params w d :
  heap w !! params = Some d →
  ∃ d', heap (add_default_params self params w).2 !! params = Some d' ∧
        d' !! "Expires" = Some (expires_at w) ∧
        d' !! "Signature" =
          Some (base64.b64encode
                  (hmac.digest (key self)
                     (method self
                        +:+ nl +:+ slot "content-md5" (add_default_headers self [])
                        +:+ nl +:+ slot "content-type" (add_default_headers self [])
                        +:+ nl +:+ expires_at w +:+ nl +:+ action self))).
Proof.
  intros Hd. rewrite (add_default_params_run _ _ _ _ Hd). cbn [snd heap].
  eexists. rewrite lookup_insert_eq. split; [done|]. split; [by simplify_map_eq|].
  rewrite lookup_insert_ne, lookup_insert_ne, lookup_insert_eq by done.
  unfold signature_at, _get_aws_auth_param.
  rewrite string_to_sign_lines. unfold expires_at at 1.
  by rewrite str_int_nonempty.
Qed.

(** X18: the signature does not cover the request parameters: two
    invocations at the same clock reading store the same [Signature],
    whatever the parameter maps hold. *)
Theorem signature_ignores_params self params params' w w' d d' :
  heap w !! params = Some d → heap w' !! params' = Some d' →
  clock w (tick w) = clock w' (tick w') →
  ∃ s d1 d1',
    heap (add_default_params self params w).2 !! params = Some d1 ∧
    heap (add_default_params self params' w').2 !! params' = Some d1' ∧
    d1 !! "Signature" = Some s ∧ d1' !! "Signature" = Some s.
Proof.
  intros Hd Hd' Hclock.
  rewrite (add_default_params_run _ _ _ _ Hd), (add_default_params_run _ _ _ _ Hd').
  cbn [snd heap]. rewrite !lookup_insert_eq.
  exists (signature_at self w d). eexists. eexists.
  split; [reflexivity|]. split; [reflexivity|].
  split; [by simplify_map_eq|].
  rewrite lookup_insert_ne, lookup_insert_ne, lookup_insert_eq by done.
  unfold signature_at, expires_at. by rewrite Hclock.
Qed.

(** X19: a second invocation on the same map only overwrites the three
    authentication parameters: the key set stays the one the first
    invocation left, and every other entry is still the caller's. *)
Theorem add_default_params_twice self params w d :
  heap w !! params = Some d →
  let w1 := (add_default_params self params w).2 in
  let w2 := (add_default_params self params w1).2 in
  ∃ d1 d2, heap w1 !! params = Some d1 ∧ heap w2 !! params = Some d2 ∧
           dom d2 = dom d1 ∧
           d2 !! "AWSAccessKeyId" = d1 !! "AWSAccessKeyId" ∧
           (∀ k, k ∉ auth_keys → d2 !! k = d !! k) ∧
           tick w2 = S (S (tick w)).
Proof.
  intros Hd w1 w2. unfold w2, w1.
  rewrite (add_default_params_run _ _ _ _ Hd). cbn [snd].
  erewrite add_default_params_run by (cbn [heap]; apply lookup_insert_eq).
  cbn [snd heap tick]. rewrite !lookup_insert_eq. eexists. eexists.
  split; [reflexivity|]. split; [reflexivity|].
  split; [|split; [|split; [|reflexivity]]].
  - rewrite !dom_insert_L. set_solver.
  - by simplify_map_eq.
  - intros k Hk. rewrite auth_key_cases in Hk.
    rewrite !lookup_insert_ne; [done|intros <-; tauto..].
Qed.

End builder_edges.

Section shapes.

Lemma length_be_bytes (n : nat) (x : Z) : length (hashlib.be_bytes n x) = n.
Proof.
  revert x. induction n as [|n IH]; intros x; [done|].
  simpl. rewrite length_app, IH. simpl. lia.
Qed.

Lemma length_sha1_bytes (msg : list Z) : length (hashlib.sha1_bytes msg) = 20%nat.
Proof.
  unfold hashlib.sha1_bytes.
  destruct (fold_left hashlib.compress _ hashlib.init) as [[[[h0 h1] h2] h3] h4].
  by rewrite !length_app, !length_be_bytes.
Qed.

Lemma bytes_of_string_of_bytes_length (l : list Z) :
  length (hashlib.bytes_of_string (hashlib.string_of_bytes l)) = length l.
Proof. induction l as [|b l IH]; [done|]. simpl. by rewrite IH. Qed.

Lemma length_encode_20 (l : list Z) :
  length l = 20%nat → String.length (base64.encode l) = 28%nat.
Proof.
  intros Hlen.
  do 20 (destruct l as [|? l]; [discriminate Hlen|]).
  destruct l; [reflexivity|discriminate Hlen].
Qed.

(** X20: the signature is always a string of 28 characters, the base64
    form of a 20-byte digest, whatever the method, headers, expiry, key
    and path are. *)
Theorem signature_length method headers params expires secret_key path :
  String.length (_get_aws_auth_param method headers params expires secret_key path)
  = 28%nat.
Proof.
  unfold _get_aws_auth_param, base64.b64encode, hmac.digest.
  apply length_encode_20.
  rewrite bytes_of_string_of_bytes_length.
  unfold hmac.digest_bytes. apply length_sha1_bytes.
Qed.

(** X21: the body that [create_container] sends holds the location label
    XML-escaped inside [LocationConstraint]; for the empty label (the
    US-standard driver) the element is written as an empty-element tag. *)
Theorem create_container_body_cases (self : StorageDriver) :
  (ex_location_name self = "" →
     create_container_body self =
     "<CreateBucketConfiguration><LocationConstraint /></CreateBucketConfiguration>") ∧
  (ex_location_name self ≠ "" →
     create_container_body self =
     "<CreateBucketConfiguration><LocationConstraint>"
       +:+ ElementTree.escape_cdata (ex_location_name self)
       +:+ "</LocationConstraint></CreateBucketConfiguration>").
Proof.
  change (create_container_body self)
    with (ElementTree.serialize (CreateBucketConfiguration (ex_location_name self))).
  split.
  - intros ->. reflexivity.
  - intros Hne. destruct (ex_location_name self) as [|c label]; [done|].
    unfold CreateBucketConfiguration, ElementTree.serialize, ElementTree.escaped.
    cbn [ElementTree.nonempty default orb].
    rewrite bool_decide_eq_false_2 by done. cbn [negb].
    rewrite !app_assoc_str. reflexivity.
Qed.

End shapes.

(** * The further properties on concrete inputs *)

Lemma list_containers_status_table_witness :
  let self := S3StorageDriver "id" "secret" in
  let doc := ListAllMyBucketsResult [] [Bucket "photos" "2011-01-01"] [] in
  let response i := {| status := i; body := ""; object := doc |} in
  let answer i : Request → Result Response := λ _, Return (response i) in
  (list_containers (answer 200) self []).2 =
    [{| req_action := "/"; req_data := None; req_method := "GET" |}] ∧
  (list_containers (answer 200) self []).1 =
    Return (_to_containers self doc "Buckets/Bucket") ∧
  (list_containers (answer 404) self []).1 =
    Raise (LibcloudError "Unexpected status code: 404" (Some (driver_object self))).
Proof.
  intros self doc response answer.
  pose proof (λ i, list_containers_status_table (answer i) self [] (response i)
                     eq_refl) as H.
  split; [apply (H 200)|]. split; [apply (H 200); reflexivity|].
  apply (H 404). simpl. lia.
Defined.

Lemma list_container_objects_status_table_witness :
  let self := S3StorageDriver "id" "secret" in
  let photos := {| container_name := Some "photos"; container_extra := None;
                   container_driver := self |} in
  let doc := ListBucketResult [Contents "a.txt" "3" "900150983cd2" "af3c" "alice"] in
  let response i := {| status := i; body := ""; object := doc |} in
  let answer i : Request → Result Response := λ _, Return (response i) in
  (list_container_objects (answer 200) self photos []).2 =
    [{| req_action := "/photos"; req_data := None; req_method := "GET" |}] ∧
  (list_container_objects (answer 200) self photos []).1 =
    Return (_to_objs self doc "Contents" photos) ∧
  (list_container_objects (answer 409) self photos []).1 =
    Raise (LibcloudError "Unexpected status code: 409" (Some (driver_object self))).
Proof.
  intros self photos doc response answer.
  pose proof (λ i, list_container_objects_status_table (answer i) self photos []
                     (response i) eq_refl) as H.
  split; [apply (H 200)|]. split; [apply (H 200); reflexivity|].
  apply (H 409). simpl. lia.
Defined.

Lemma create_container_other_statuses_witness :
  let self := S3USWestStorageDriver "id" "secret" in
  let response i := {| status := i; body := "";
                       object := ElementTree.Elem "" None [] None |} in
  let answer i : Request → Result Response := λ _, Return (response i) in
  (create_container (answer 500) self "photos" []).1 =
    Raise (LibcloudError "Unexpected status code: 500" (Some (driver_object self))) ∧
  status (response 200) = 200.
Proof.
  intros self response answer.
  pose proof (λ i, create_container_other_statuses (answer i) self "photos" []
                     (response i) eq_refl) as H.
  split.
  - apply (H 500); simpl; lia.
  - apply (proj2 (H 200) {| container_name := Some "photos"; container_extra := None;
                            container_driver := self |}).
    reflexivity.
Defined.

Lemma connection_errors_propagate_witness :
  let self := S3StorageDriver "id" "secret" in
  let photos := {| container_name := Some "photos"; container_extra := None;
                   container_driver := self |} in
  let denied : Request → Result Response := λ _, Raise (InvalidCredsError "denied") in
  (list_containers denied self []).1 = Raise (InvalidCredsError "denied") ∧
  (delete_container denied self photos []).1 = Raise (InvalidCredsError "denied").
Proof.
  intros self photos denied.
  destruct (connection_errors_propagate denied self photos "photos" []
              (InvalidCredsError "denied") (λ _, eq_refl))
    as (Hlist & _ & _ & Hdelete & _).
  split; [exact Hlist|exact Hdelete].
Defined.

Lemma created_container_round_trip_witness :
  let self := S3StorageDriver "id" "secret" in
  let photos := {| container_name := Some "photos"; container_extra := None;
                   container_driver := self |} in
  let created : Request → Result Response :=
    λ _, Return {| status := 200; body := "";
                   object := ElementTree.Elem "" None [] None |} in
  (delete_container created self photos []).2 =
    [{| req_action := "/photos"; req_data := None; req_method := "DELETE" |}].
Proof.
  intros self photos created.
  destruct (created_container_round_trip created self "photos" [] photos eq_refl)
    as [_ Hlater].
  apply (Hlater created []).
Defined.

Lemma to_containers_every_entry_witness :
  let self := S3StorageDriver "id" "secret" in
  let owner := ElementTree.Elem (qualified "Owner") None [text_field "ID" "af3c"] None in
  length (_to_containers self
            (ListAllMyBucketsResult [owner]
               (map (λ e, Bucket e.1 e.2) [("a", "1"); ("b", "2"); ("c", "3")]) [])
            "Buckets/Bucket") = 3%nat.
Proof.
  intros self owner.
  rewrite (to_containers_every_entry self [owner] [] [("a", "1"); ("b", "2"); ("c", "3")]).
  - reflexivity.
  - solve_tags.
  - solve_tags.
Defined.

Lemma to_container_name_lookup_witness :
  let self := S3StorageDriver "id" "secret" in
  container_name
    (_to_container self
       (ElementTree.Elem (qualified "Bucket") None
          [text_field "CreationDate" "2011-01-01"] None)) = None ∧
  container_name
    (_to_container self
       (ElementTree.Elem (qualified "Bucket") None
          [text_field "CreationDate" "2011-01-01";
           ElementTree.Elem (qualified "Name") None [] None;
           text_field "Name" "second"] None)) = Some "".
Proof.
  intros self. split.
  - apply to_container_name_lookup. solve_tags.
  - apply (proj2 (to_container_name_lookup self _)
             [text_field "CreationDate" "2011-01-01"] None [] None
             [text_field "Name" "second"]).
    + reflexivity.
    + solve_tags.
Defined.

Lemma no_matching_nodes_witness :
  let self := S3StorageDriver "id" "secret" in
  let photos := {| container_name := Some "photos"; container_extra := None;
                   container_driver := self |} in
  let error := ElementTree.Elem "Error" None
                 [ElementTree.Elem "Code" (Some "AccessDenied") [] None;
                  ElementTree.Elem "Buckets" None
                    [ElementTree.Elem "Bucket" None [] None] None;
                  ElementTree.Elem "Contents" None [] None] None in
  _to_containers self error "Buckets/Bucket" = [] ∧
  _to_objs self error "Contents" photos = [].
Proof.
  intros self photos error.
  destruct (no_matching_nodes self error photos) as [Hc Ho].
  split; [apply Hc|apply Ho]; solve_tags.
Defined.

Lemma to_objs_every_entry_witness :
  let self := S3StorageDriver "id" "secret" in
  let photos := {| container_name := Some "photos"; container_extra := None;
                   container_driver := self |} in
  length (_to_objs self
            (ElementTree.Elem (qualified "ListBucketResult") None
               ([text_field "Name" "photos"]
                ++ map (λ e, Contents e.1.1.1 e.1.1.2 e.1.2 e.2.1 e.2.2)
                       [("a.txt", "3", "9001", ("af3c", "alice"));
                        ("b.txt", "5", "5098", ("af3c", "alice"))]
                ++ [text_field "IsTruncated" "false"]) None)
            "Contents" photos) = 2%nat.
Proof.
  intros self photos.
  rewrite (to_objs_every_entry self (qualified "ListBucketResult") None None
             [text_field "Name" "photos"] [text_field "IsTruncated" "false"] photos
             [("a.txt", "3", "9001", ("af3c", "alice"));
              ("b.txt", "5", "5098", ("af3c", "alice"))]).
  - reflexivity.
  - solve_tags.
  - solve_tags.
Defined.

Lemma to_obj_without_owner_witness :
  let self := S3StorageDriver "id" "secret" in
  let photos := {| container_name := Some "photos"; container_extra := None;
                   container_driver := self |} in
  object_meta_data
    (_to_obj self (ElementTree.Elem (qualified "Contents") None
                     [text_field "Key" "a.txt"] None) photos) =
  {[ "owner" := <["display_name" := None]> {[ "id" := None ]} ]}.
Proof.
  intros self photos. apply to_obj_without_owner. solve_tags.
Defined.

Lemma unnamed_container_path_witness :
  let self := S3StorageDriver "id" "secret" in
  let gone : Request → Result Response :=
    λ _, Return {| status := 404; body := "";
                   object := ElementTree.Elem "" None [] None |} in
  (delete_container gone self
     (_to_container self (ElementTree.Elem (qualified "Bucket") None [] None)) []).2 =
  [{| req_action := "/None"; req_data := None; req_method := "DELETE" |}].
Proof.
  intros self gone.
  apply (unnamed_container_path self
           (ElementTree.Elem (qualified "Bucket") None [] None) gone []).
  solve_tags.
Defined.

Lemma expiry_overrides_date_header_witness :
  _get_aws_auth_param "GET" [("Date", "Tue, 27 Mar 2007 19:36:42 +0000")] ∅
                      (Py.VStr "1300000000") "secret" "/" =
  _get_aws_auth_param "GET" [] ∅ (Py.VStr "1300000000") "secret" "/".
Proof.
  apply (expiry_overrides_date_header "GET" ∅ (Py.VStr "1300000000") "secret" "/"
           [] [] "Date" "Tue, 27 Mar 2007 19:36:42 +0000"); reflexivity.
Defined.

Lemma falsy_expiry_signs_date_header_witness :
  string_to_sign "GET" [("X-Foo", "bar")] (Py.VInt 0) "/" =
    "GET" +:+ nl +:+ "" +:+ nl +:+ "" +:+ nl +:+ "" +:+ nl +:+ "/" ∧
  string_to_sign "GET" ([("X-Foo", "bar")] ++ [("DATE", " Tue, 27 Mar 2007 ")])
                 (Py.VInt 0) "/" =
    "GET" +:+ nl +:+ "" +:+ nl +:+ "" +:+ nl +:+ "tue, 27 mar 2007" +:+ nl +:+ "/".
Proof.
  destruct (falsy_expiry_signs_date_header "GET" [("X-Foo", "bar")] (Py.VInt 0) "/"
              (or_intror (or_intror eq_refl))) as (Hlines & Hnone & Hdate).
  split.
  - rewrite Hlines, Hnone; [reflexivity|].
    intros key value Hin. apply list_elem_of_In in Hin.
    destruct Hin as [[= <- <-]|[]]. vm_compute. discriminate.
  - rewrite (Hdate "DATE" " Tue, 27 Mar 2007 "); reflexivity.
Defined.

Lemma later_spelling_wins_witness :
  _get_aws_auth_param "PUT" [("Content-Type", "text/plain"); ("content-type", "text/xml")]
                      ∅ (Py.VStr "1300000000") "secret" "/bucket" =
  _get_aws_auth_param "PUT" [("content-type", "text/xml")]
                      ∅ (Py.VStr "1300000000") "secret" "/bucket".
Proof.
  apply (later_spelling_wins "PUT" ∅ (Py.VStr "1300000000") "secret" "/bucket"
           [] [("content-type", "text/xml")] "Content-Type" "text/plain"
           "content-type" "text/xml").
  - apply list_elem_of_In. left. reflexivity.
  - reflexivity.
Defined.

Lemma string_to_sign_binds_method_and_path_witness :
  string_to_sign "GET" [] (Py.VStr "1300000000") "/a" ≠
  string_to_sign "GET" [] (Py.VStr "1300000000") "/b" ∧
  string_to_sign "GET" [] (Py.VStr "1300000000") "/a" ≠
  string_to_sign "DELETE" [] (Py.VStr "1300000000") "/a".
Proof.
  split; intros Heq.
  - apply (string_to_sign_binds_method_and_path [] (Py.VStr "1300000000")
             "GET" "GET" "/a" "/b") in Heq.
    discriminate Heq.
  - apply (string_to_sign_binds_method_and_path [] (Py.VStr "1300000000")
             "GET" "DELETE" "/a" "/a") in Heq.
    discriminate Heq.
Defined.

Lemma add_default_params_signs_expiry_witness :
  let self := {| user_id := "AKID"; key := "secret"; method := "GET"; action := "/";
                 add_default_headers :=
                   λ h, ("Date", "Tue, 27 Mar 2007 19:36:42 +0000") :: h |} in
  let w := {| heap := {[ 0%nat := ({[ "prefix" := "a" ]} : gmap string string) ]};
              clock := λ _, Qmake 1234566990 1; tick := 0 |} in
  ∃ d', heap (add_default_params self 0%nat w).2 !! 0%nat = Some d' ∧
        d' !! "Expires" = Some "1234567890" ∧
        d' !! "Signature" = Some "3cCwxNedzO2leuje4HGkiZDVJPU=".
Proof.
  intros self w.
  destruct (add_default_params_signs_expiry self 0%nat w {[ "prefix" := "a" ]} eq_refl)
    as (d' & Hd' & Hexp & Hsig).
  exists d'. split; [exact Hd'|]. split.
  - rewrite Hexp. reflexivity.
  - rewrite Hsig. vm_compute. reflexivity.
Defined.

Lemma signature_ignores_params_witness :
  let self := {| user_id := "AKID"; key := "secret"; method := "GET"; action := "/";
                 add_default_headers := λ h, h |} in
  let w := {| heap := {[ 0%nat := ({[ "prefix" := "a" ]} : gmap string string) ]};
              clock := λ _, Qmake 1300000000 1; tick := 0 |} in
  let w' := {| heap := {[ 5%nat := ({[ "marker" := "z"; "max-keys" := "10" ]}
                                     : gmap string string) ]};
               clock := λ _, Qmake 1300000000 1; tick := 3 |} in
  ∃ s d1 d1',
    heap (add_default_params self 0%nat w).2 !! 0%nat = Some d1 ∧
    heap (add_default_params self 5%nat w').2 !! 5%nat = Some d1' ∧
    d1 !! "Signature" = Some s ∧ d1' !! "Signature" = Some s.
Proof.
  intros self w w'.
  apply (signature_ignores_params self 0%nat 5%nat w w'
           {[ "prefix" := "a" ]} {[ "marker" := "z"; "max-keys" := "10" ]});
    reflexivity.
Defined.

Lemma add_default_params_twice_witness :
  let self := {| user_id := "AKID"; key := "secret"; method := "GET"; action := "/";
                 add_default_headers := λ h, h |} in
  let w := {| heap := {[ 0%nat := ({[ "prefix" := "a" ]} : gmap string string) ]};
              clock := λ n, Qmake (1300000000 + Z.of_nat n) 1; tick := 0 |} in
  ∃ d1 d2,
    heap (add_default_params self 0%nat w).2 !! 0%nat = Some d1 ∧
    heap (add_default_params self 0%nat (add_default_params self 0%nat w).2).2
      !! 0%nat = Some d2 ∧
    dom d2 = dom d1.
Proof.
  intros self w.
  destruct (add_default_params_twice self 0%nat w {[ "prefix" := "a" ]} eq_refl)
    as (d1 & d2 & Hd1 & Hd2 & Hdom & _).
  exists d1, d2. split; [exact Hd1|]. split; [exact Hd2|exact Hdom].
Defined.

Lemma create_container_body_cases_witness :
  create_container_body (S3StorageDriver "id" "secret") =
    "<CreateBucketConfiguration><LocationConstraint /></CreateBucketConfiguration>" ∧
  create_container_body (S3APNEStorageDriver "id" "secret") =
    "<CreateBucketConfiguration><LocationConstraint>"
      +:+ ElementTree.escape_cdata "ap-northeast-1"
      +:+ "</LocationConstraint></CreateBucketConfiguration>".
Proof.
  split.
  - apply (create_container_body_cases (S3StorageDriver "id" "secret")). reflexivity.
  - apply (create_container_body_cases (S3APNEStorageDriver "id" "secret")).
    discriminate.
Defined.
